(** * Page objects of the e-commerce portal test framework

    A shallow embedding of [framework/config.py] and of the page objects
    under [framework/pages/] (base, login, inventory and cart page), with
    the properties their specification states about them.

    Conventions of the embedding.
    - A Python [str] is a sequence of code points.  The development works
      with the code points U+0000 .. U+00FF: a [string] of Rocq holds one
      [ascii] per code point, so ["178"%char] is SUPERSCRIPT TWO.  On this
      range [str.lower], [str.isdigit], [str.isspace] and the literal
      grammars of [int()] and [float()] are transcribed in full.
    - A Python [int] is a [Z]; a Python [float] is an IEEE 754 binary64
      value, a [spec_float] with precision 53 and maximal exponent 1024.
    - A call that can raise returns an [outcome]; [try]/[except] is
      [try_except].
    - The browser is not part of the repository: a [Page] gives, for each
      selector, the result of the Playwright calls the page objects make.
    - The steps reported to Allure are left out, and a method that
      returns [self] for chaining returns nothing here.  *)

From Stdlib Require Import ZArith List String Ascii Bool Lia Permutation Sorted.
From Stdlib Require Import Floats.SpecFloat.
From stdpp Require Import base option gmap strings.
Import ListNotations.

Local Open Scope string_scope.
Local Open Scope Z_scope.

(** ** Exceptions and results *)

Module PyExn.

(** The exception classes that occur in the modelled code, with the
    part of the class hierarchy of Python and Playwright they belong to. *)
Inductive exn_class : Type :=
| BaseException
| KeyboardInterrupt
| Exception
| ArithmeticError
| OverflowError
| LookupError
| KeyError
| IndexError
| ValueError
| OSError
| PlaywrightError
| PlaywrightTimeoutError.

Definition exn_class_eqb (a b : exn_class) : bool :=
  match a, b with
  | BaseException, BaseException
  | KeyboardInterrupt, KeyboardInterrupt
  | Exception, Exception
  | ArithmeticError, ArithmeticError
  | OverflowError, OverflowError
  | LookupError, LookupError
  | KeyError, KeyError
  | IndexError, IndexError
  | ValueError, ValueError
  | OSError, OSError
  | PlaywrightError, PlaywrightError
  | PlaywrightTimeoutError, PlaywrightTimeoutError => true
  | _, _ => false
  end.

(** The base class of a class ([None] for the root). *)
Definition base_class (c : exn_class) : option exn_class :=
  match c with
  | BaseException => None
  | KeyboardInterrupt => Some BaseException
  | Exception => Some BaseException
  | ArithmeticError => Some Exception
  | OverflowError => Some ArithmeticError
  | LookupError => Some Exception
  | KeyError => Some LookupError
  | IndexError => Some LookupError
  | ValueError => Some Exception
  | OSError => Some Exception
  | PlaywrightError => Some Exception
  | PlaywrightTimeoutError => Some PlaywrightError
  end.

(** [issubclass c base]: the hierarchy has depth four. *)
Fixpoint issubclass_fuel (fuel : nat) (c base : exn_class) : bool :=
  exn_class_eqb c base ||
  match fuel with
  | O => false
  | S fuel' =>
      match base_class c with
      | Some p => issubclass_fuel fuel' p base
      | None => false
      end
  end.

Definition issubclass (c base : exn_class) : bool := issubclass_fuel 4 c base.

Inductive outcome (A : Type) : Type :=
| Ok (a : A)
| Raise (e : exn_class).
Arguments Ok {A} a.
Arguments Raise {A} e.

Definition bind {A B : Type} (m : outcome A) (k : A -> outcome B) : outcome B :=
  match m with
  | Ok a => k a
  | Raise e => Raise e
  end.

(** [try: body except cls: handler] *)
Definition try_except {A : Type} (body : outcome A) (cls : exn_class)
    (handler : outcome A) : outcome A :=
  match body with
  | Ok a => Ok a
  | Raise e => if issubclass e cls then handler else Raise e
  end.

Definition raises {A : Type} (m : outcome A) : Prop :=
  exists e, m = Raise e.

End PyExn.
Export PyExn.

#[global] Instance outcome_ret : MRet outcome := fun A a => Ok a.
#[global] Instance outcome_bind : MBind outcome := fun A B k m => PyExn.bind m k.

(** [for x in xs: acc = body(acc, x)] where the body may raise. *)
Fixpoint for_each {A S : Type} (body : S -> A -> outcome S) (xs : list A) (acc : S)
    : outcome S :=
  match xs with
  | [] => Ok acc
  | x :: rest => acc' ← body acc x; for_each body rest acc'
  end.

(** [[f(x) for x in xs]] where [f] may raise. *)
Fixpoint comprehension {A B : Type} (f : A -> outcome B) (xs : list A)
    : outcome (list B) :=
  match xs with
  | [] => Ok []
  | x :: rest => y ← f x; ys ← comprehension f rest; Ok (y :: ys)
  end.

(** [a and b] for two tests; [b] is looked at when [a] is true. *)
Definition py_and (a b : outcome bool) : outcome bool :=
  x ← a; if (x : bool) then b else Ok false.

(** ** Python strings on the code points U+0000 .. U+00FF *)

Module PyStr.

Definition code (c : ascii) : Z := Z.of_nat (nat_of_ascii c).

Definition chr (n : Z) : ascii := ascii_of_nat (Z.to_nat n).

(** The double quote, which selectors contain. *)
Definition dquote : string := String (chr 34) EmptyString.

(** [str.lower] on one code point: the upper case letters of Basic Latin
    and of Latin-1 Supplement (U+00D7, the multiplication sign, is none). *)
Definition lower_char (c : ascii) : ascii :=
  let n := code c in
  if ((65 <=? n) && (n <=? 90)) || ((192 <=? n) && (n <=? 222) && negb (n =? 215))
  then chr (n + 32)
  else c.

(** [s.lower()] *)
Fixpoint lower (s : string) : string :=
  match s with
  | EmptyString => EmptyString
  | String c rest => String (lower_char c) (lower rest)
  end.

(** [s.replace(old, new)] for a non-empty [old]: the occurrences of [old]
    are found from left to right and do not overlap; [skip] counts the
    characters of a found occurrence still to be dropped. *)
Fixpoint replace_from (old new : string) (skip : nat) (s : string) : string :=
  match s with
  | EmptyString => EmptyString
  | String c rest =>
      match skip with
      | S k => replace_from old new k rest
      | O =>
          if String.prefix old s
          then new +:+ replace_from old new (String.length old - 1)%nat rest
          else String c (replace_from old new 0 rest)
      end
  end.

(** [s.replace(old, new)] for the empty [old] puts [new] before every
    character and at the end. *)
Fixpoint intersperse_after (new : string) (s : string) : string :=
  match s with
  | EmptyString => EmptyString
  | String c rest => String c (new +:+ intersperse_after new rest)
  end.

(** [s.replace(old, new)] *)
Definition replace (s old new : string) : string :=
  match old with
  | EmptyString => new +:+ intersperse_after new s
  | String _ _ => replace_from old new 0 s
  end.

(** [sub in s] *)
Fixpoint contains (sub s : string) : bool :=
  String.prefix sub s ||
  match s with
  | EmptyString => false
  | String _ rest => contains sub rest
  end.

(** The pieces of [s] between the characters that satisfy [is_sep]; an
    empty piece stands between two adjacent separators and at either end. *)
Fixpoint pieces (is_sep : ascii -> bool) (s : string) : list string :=
  match s with
  | EmptyString => [EmptyString]
  | String c rest =>
      if is_sep c then EmptyString :: pieces is_sep rest
      else match pieces is_sep rest with
           | p :: ps => String c p :: ps
           | [] => [String c EmptyString]
           end
  end.

(** [s.split(sep)] for a separator of one character. *)
Definition split_on (sep : ascii) (s : string) : list string :=
  pieces (Ascii.eqb sep) s.

(** [c.isspace()] *)
Definition isspace_char (c : ascii) : bool :=
  let n := code c in
  ((9 <=? n) && (n <=? 13)) || ((28 <=? n) && (n <=? 32)) || (n =? 133) || (n =? 160).

Definition nonempty (s : string) : bool :=
  match s with
  | EmptyString => false
  | String _ _ => true
  end.

(** [s.split()]: the maximal runs of characters that are no whitespace. *)
Definition split_whitespace (s : string) : list string :=
  List.filter nonempty (pieces isspace_char s).

(** [c.isdigit()]: the decimal digits and SUPERSCRIPT TWO, THREE and ONE. *)
Definition isdigit_char (c : ascii) : bool :=
  let n := code c in
  ((48 <=? n) && (n <=? 57)) || (n =? 178) || (n =? 179) || (n =? 185).

Fixpoint all_chars (p : ascii -> bool) (s : string) : bool :=
  match s with
  | EmptyString => true
  | String c rest => p c && all_chars p rest
  end.

(** [s.isdigit()] *)
Definition isdigit (s : string) : bool := nonempty s && all_chars isdigit_char s.

(** [a < b] on strings: lexicographic on code points. *)
Fixpoint str_ltb (a b : string) : bool :=
  match a, b with
  | _, EmptyString => false
  | EmptyString, String _ _ => true
  | String x a', String y b' =>
      if code x <? code y then true
      else if code y <? code x then false
      else str_ltb a' b'
  end.

(** [x or ''] for an optional string. *)
Definition or_empty (x : option string) : string :=
  match x with
  | Some s => s
  | None => EmptyString
  end.

End PyStr.

(** ** Python numbers: [int()], [float()] and binary64 arithmetic *)

Module PyNum.
Import PyStr.

(** A Python [float]. *)
Definition float : Type := spec_float.

Definition prec : Z := 53.
Definition emax : Z := 1024.

Definition fadd : float -> float -> float := SFadd prec emax.
Definition fmul : float -> float -> float := SFmul prec emax.
Definition fltb : float -> float -> bool := SFltb.
Definition feqb : float -> float -> bool := SFeqb.

Definition is_nan (x : float) : bool :=
  match x with
  | S754_nan => true
  | _ => false
  end.

(** [0.0] *)
Definition fzero : float := S754_zero false.

(** The whitespace that [int()] and [float()] strip from both ends: the
    code points above U+007F that are spaces become a blank first, below
    it only the six whitespace characters of C count. *)
Definition number_space (c : ascii) : bool :=
  let n := code c in
  ((9 <=? n) && (n <=? 13)) || (n =? 32) || (n =? 133) || (n =? 160).

Fixpoint lstrip (p : ascii -> bool) (s : string) : string :=
  match s with
  | EmptyString => EmptyString
  | String c rest => if p c then lstrip p rest else s
  end.

Definition reverse (s : string) : string :=
  string_of_list_ascii (List.rev (list_ascii_of_string s)).

Definition rstrip (p : ascii -> bool) (s : string) : string :=
  reverse (lstrip p (reverse s)).

Definition strip (p : ascii -> bool) (s : string) : string :=
  rstrip p (lstrip p s).

Definition digit_value (c : ascii) : option Z :=
  let n := code c in
  if (48 <=? n) && (n <=? 57) then Some (n - 48) else None.

Definition is_ascii_digit (c : ascii) : bool :=
  match digit_value c with
  | Some _ => true
  | None => false
  end.

Definition underscore : ascii := chr 95.

(** A leading sign: whether it is a minus, and what follows it. *)
Definition take_sign (s : string) : bool * string :=
  match s with
  | String c rest =>
      if code c =? 45 then (true, rest)
      else if code c =? 43 then (false, rest)
      else (false, s)
  | EmptyString => (false, s)
  end.

(** The digits of an integer literal up to the end of the string, with
    single underscores between digits; [prev_digit] tells whether the
    character before was a digit. *)
Fixpoint digitpart (prev_digit : bool) (acc : Z) (s : string) : option Z :=
  match s with
  | EmptyString => if prev_digit then Some acc else None
  | String c rest =>
      match digit_value c with
      | Some d => digitpart true (10 * acc + d) rest
      | None =>
          if Ascii.eqb c underscore && prev_digit
          then digitpart false acc rest
          else None
      end
  end.

(** [int(s)] for a string [s], in base ten.  (The limit that recent
    interpreters put on the number of digits is a setting of the
    interpreter and is left out; exceeding it raises [ValueError] too.) *)
Definition py_int (s : string) : outcome Z :=
  let '(neg, body) := take_sign (strip number_space s) in
  match digitpart false 0 body with
  | Some n => Ok (if neg then - n else n)
  | None => Raise ValueError
  end.

(** Underscores in a [float()] literal stand between two digits; they are
    checked and dropped before the literal is read.  [prev] is the
    character before, NUL at the start. *)
Fixpoint drop_underscores (prev : ascii) (s : string) : option string :=
  match s with
  | EmptyString => if Ascii.eqb prev underscore then None else Some EmptyString
  | String c rest =>
      if Ascii.eqb c underscore then
        if is_ascii_digit prev then drop_underscores c rest else None
      else if Ascii.eqb prev underscore && negb (is_ascii_digit c) then None
      else option_map (String c) (drop_underscores c rest)
  end.

(** The leading decimal digits of [s]: their value after [acc], how many
    there are, and the rest of the string. *)
Fixpoint take_digits (acc : Z) (count : nat) (s : string) : Z * nat * string :=
  match s with
  | EmptyString => (acc, count, s)
  | String c rest =>
      match digit_value c with
      | Some d => take_digits (10 * acc + d) (S count) rest
      | None => (acc, count, s)
      end
  end.

(** The binary64 value nearest to [m * 10 ^ e] (ties to even), with the
    sign [neg]; overflow gives an infinity and underflow a zero. *)
Definition of_decimal (neg : bool) (m : Z) (e : Z) : float :=
  match m with
  | Z0 => S754_zero neg
  | Zpos p =>
      if 0 <=? e then binary_round prec emax neg (Z.to_pos (Zpos p * 10 ^ e)) 0
      else
        let '(q, e', l) := SFdiv_core_binary prec emax (Zpos p) 0 (10 ^ (- e)) 0 in
        binary_round_aux prec emax neg q e' l
  | Zneg _ => S754_nan
  end.

(** [str.lower] restricted to Basic Latin, as the spellings of infinity
    and of not-a-number are matched. *)
Definition ascii_lower_char (c : ascii) : ascii :=
  let n := code c in
  if (65 <=? n) && (n <=? 90) then chr (n + 32) else c.

Fixpoint ascii_lower (s : string) : string :=
  match s with
  | EmptyString => EmptyString
  | String c rest => String (ascii_lower_char c) (ascii_lower rest)
  end.

(** The exponent part of a literal, which must reach the end of the
    string: nothing, or [e] or [E], an optional sign and digits. *)
Definition exponent_part (s : string) : option Z :=
  match s with
  | EmptyString => Some 0
  | String c rest =>
      if (code c =? 101) || (code c =? 69) then
        let '(neg, digits) := take_sign rest in
        match take_digits 0 0 digits with
        | (_, O, _) => None
        | (n, S _, EmptyString) => Some (if neg then - n else n)
        | (_, S _, String _ _) => None
        end
      else None
  end.

(** A number after its sign: digits, a point and digits (with a digit on
    one side of the point at least), then the exponent part. *)
Definition decimal_literal (neg : bool) (s : string) : option float :=
  let '(int_value, int_count, after_int) := take_digits 0 0 s in
  let '(mantissa, frac_count, after_frac) :=
    match after_int with
    | String c rest =>
        if code c =? 46 then take_digits int_value 0 rest
        else (int_value, O, after_int)
    | EmptyString => (int_value, O, after_int)
    end in
  match (int_count + frac_count)%nat with
  | O => None
  | S _ =>
      match exponent_part after_frac with
      | Some e => Some (of_decimal neg mantissa (e - Z.of_nat frac_count))
      | None => None
      end
  end.

(** [float(s)] for a string [s]. *)
Definition py_float (s : string) : outcome float :=
  match drop_underscores (chr 0) s with
  | None => Raise ValueError
  | Some s1 =>
      let '(neg, body) := take_sign (strip number_space s1) in
      match decimal_literal neg body with
      | Some x => Ok x
      | None =>
          let word := ascii_lower body in
          if String.eqb word "inf" || String.eqb word "infinity"
          then Ok (S754_infinity neg)
          else if String.eqb word "nan" then Ok S754_nan
          else Raise ValueError
      end
  end.

(** The conversion of an [int] operand of a [float] operation: nearest
    binary64 value, ties to even, [OverflowError] beyond the finite range. *)
Definition float_of_int (n : Z) : outcome float :=
  match binary_normalize prec emax n 0 false with
  | S754_infinity _ => Raise OverflowError
  | x => Ok x
  end.

(** [x * n] for a [float] [x] and an [int] [n]. *)
Definition fmul_int (x : float) (n : Z) : outcome float :=
  y ← float_of_int n; Ok (fmul x y).

End PyNum.

(** ** Python lists: [sorted] and [==] *)

Module PyList.

Section Sorting.
Context {A : Type}.
Variable ltb : A -> A -> bool.
Variable eqb : A -> A -> bool.

(** [x] is put in front of the sorted list [l] of the elements that came
    after it: it passes the elements that are smaller, and stays before
    those that are equal. *)
Fixpoint insert_sorted (x : A) (l : list A) : list A :=
  match l with
  | [] => [x]
  | y :: rest => if ltb y x then y :: insert_sorted x rest else x :: y :: rest
  end.

(** [sorted(l)].  The sort of Python is stable and compares with [<]
    alone; where [<] orders the elements as it does strings and numbers
    (not-a-number apart), the result is the one stable arrangement, which
    insertion computes. *)
Fixpoint sorted (l : list A) : list A :=
  match l with
  | [] => []
  | x :: rest => insert_sorted x (sorted rest)
  end.

(** [sorted(l, reverse=True)]: the list is reversed, sorted and reversed
    again, which keeps equal elements in their order. *)
Definition sorted_reverse (l : list A) : list A := rev (sorted (rev l)).

(** [a] may stand before [b]: [b] is not smaller than [a]. *)
Definition not_after (a b : A) : Prop := ltb b a = false.

(** [l1 == l2] *)
Fixpoint list_eqb (l1 l2 : list A) : bool :=
  match l1, l2 with
  | [], [] => true
  | x :: r1, y :: r2 => eqb x y && list_eqb r1 r2
  | _, _ => false
  end.

End Sorting.

(** [l[i]] *)
Definition getitem {A : Type} (l : list A) (i : nat) : outcome A :=
  match l !! i with
  | Some x => Ok x
  | None => Raise IndexError
  end.

End PyList.

(** ** framework/config.py *)

Module config.

Record Config : Type := {
  base_url : string;
  browser : string;
  headless : bool;
  viewport_width : Z;
  viewport_height : Z;
  timeout : Z;
  retry_count : Z;
  parallel_workers : Z;
  standard_user : string;
  standard_password : string;
  locked_user : string;
  problem_user : string;
  performance_user : string;
  allure_results_dir : string;
  html_report_path : string;
  screenshots_dir : string;
  videos_dir : string;
  excel_file_path : string
}.

(** The defaults of the fields. *)
Definition default_config : Config := {|
  base_url := "https://www.saucedemo.com";
  browser := "chromium";
  headless := false;
  viewport_width := 1280;
  viewport_height := 720;
  timeout := 30000;
  retry_count := 2;
  parallel_workers := 4;
  standard_user := "standard_user";
  standard_password := "secret_sauce";
  locked_user := "locked_out_user";
  problem_user := "problem_user";
  performance_user := "performance_glitch_user";
  allure_results_dir := "reports/allure-results";
  html_report_path := "reports/report.html";
  screenshots_dir := "reports/screenshots";
  videos_dir := "reports/videos";
  excel_file_path := "TestData/TestCaseDocument.xlsx"
|}.

(** What the module takes from the process it runs in: [Config()], which
    reads and validates the environment, and the calls into [os]. *)
Record Environment : Type := {
  load_settings : outcome Config;
  makedirs : string -> outcome unit;
  dirname : string -> string
}.

(** The module variable [_config]. *)
Definition Globals : Type := option Config.

(** [get_config()]: the result and the module variable afterwards.
    [_config] is assigned before the directories are made. *)
Definition get_config (env : Environment) (g : Globals) : outcome Config * Globals :=
  match g with
  | Some c => (Ok c, g)
  | None =>
      match load_settings env with
      | Raise e => (Raise e, None)
      | Ok c =>
          (_ ← makedirs env (allure_results_dir c);
           _ ← makedirs env (screenshots_dir c);
           _ ← makedirs env (videos_dir c);
           _ ← makedirs env (dirname env (html_report_path c));
           Ok c,
           Some c)
      end
  end.

(** A dictionary with string keys. *)
Abbreviation dict V := (gmap string V).

(** [d[key]] *)
Definition dict_getitem {V : Type} (d : dict V) (key : string) : outcome V :=
  match d !! key with
  | Some v => Ok v
  | None => Raise KeyError
  end.

(** [d.get(key, fallback)] *)
Definition dict_get {V : Type} (d : dict V) (key : string) (fallback : V) : V :=
  default fallback (d !! key).

(** [{"username": u, "password": p}] *)
Definition credentials (u p : string) : dict string :=
  <["password" := p]> (<["username" := u]> ∅).

Definition credentials_map (config : Config) : dict (dict string) :=
  <["performance" := credentials (performance_user config) (standard_password config)]>
  (<["problem" := credentials (problem_user config) (standard_password config)]>
  (<["locked" := credentials (locked_user config) (standard_password config)]>
  (<["standard" := credentials (standard_user config) (standard_password config)]> ∅))).

(** [get_user_credentials(user_type)] *)
Definition get_user_credentials (env : Environment) (user_type : string) (g : Globals)
    : outcome (dict string) * Globals :=
  let '(r, g') := get_config env g in
  (config ← r;
   fallback ← dict_getitem (credentials_map config) "standard";
   Ok (dict_get (credentials_map config) user_type fallback),
   g').

(** The value of [user_type] when the argument is left out. *)
Definition default_user_type : string := "standard".

End config.

(** ** framework/pages/base_page.py *)

Module BasePage.
Import PyStr config.

(** The result of a call into Playwright: it is done, or it fails with
    the [TimeoutError] or with the [Error] of Playwright. *)
Inductive playwright_result (A : Type) : Type :=
| Done (a : A)
| TimedOut
| Failed.
Arguments Done {A} a.
Arguments TimedOut {A}.
Arguments Failed {A}.

Definition from_playwright {A : Type} (r : playwright_result A) : outcome A :=
  match r with
  | Done a => Ok a
  | TimedOut => Raise PlaywrightTimeoutError
  | Failed => Raise PlaywrightError
  end.

(** The browser page a page object drives, as the page objects see it
    during one call: what each Playwright call on a selector results in.
    - [wait_for sel state t]: [page.locator(sel).wait_for(state=state, timeout=t)]
    - [text_content sel]: [page.locator(sel).text_content()]
    - [all_text_content sel]: [e.text_content()] for each [e] of
      [page.locator(sel).all()]
    - [click sel]: [page.locator(sel).click()]
    [all_text_content] gives the texts of a listing that has been read:
    a read of a listing that fails is not modelled, so what is stated of
    the functions that read a listing is stated given the texts read, not
    of every exception they may let through. *)
Record Page : Type := {
  wait_for : string -> string -> Z -> playwright_result unit;
  text_content : string -> playwright_result (option string);
  all_text_content : string -> list (option string);
  click : string -> playwright_result unit
}.

(** The fields [__init__] sets. *)
Record BasePage : Type := {
  page : Page;
  config : Config;
  timeout : Z
}.

(** [BasePage(page)], where [cfg] is what [get_config()] returned. *)
Definition init (p : Page) (cfg : Config) : BasePage :=
  {| page := p; config := cfg; timeout := config.timeout cfg |}.

(** [timeout or fallback] for an optional integer: [None] and [0] are
    false. *)
Definition timeout_or (timeout : option Z) (fallback : Z) : Z :=
  match timeout with
  | Some t => if t =? 0 then fallback else t
  | None => fallback
  end.

(** [wait_for_element(selector, timeout)]; the locator it returns is
    named by its selector. *)
Definition wait_for_element (self : BasePage) (selector : string) (timeout : option Z)
    : outcome string :=
  let timeout := timeout_or timeout (BasePage.timeout self) in
  _ ← from_playwright (wait_for (page self) selector "visible" timeout);
  Ok selector.

(** [click_element(selector, timeout)] *)
Definition click_element (self : BasePage) (selector : string) (timeout : option Z)
    : outcome unit :=
  element ← wait_for_element self selector timeout;
  from_playwright (click (page self) element).

(** [get_text(selector, timeout)] *)
Definition get_text (self : BasePage) (selector : string) (timeout : option Z)
    : outcome string :=
  element ← wait_for_element self selector timeout;
  text ← from_playwright (text_content (page self) element);
  Ok (or_empty text).

(** [is_element_visible(selector, timeout)] *)
Definition is_element_visible (self : BasePage) (selector : string) (timeout : option Z)
    : outcome bool :=
  try_except
    (let timeout := timeout_or timeout 5000 in
     _ ← from_playwright (wait_for (page self) selector "visible" timeout);
     Ok true)
    Exception
    (Ok false).

(** Further calls on the same browser page, those that enter text:
    - [clear sel]: [page.locator(sel).clear()]
    - [fill sel text]: [page.locator(sel).fill(text)] *)
Record Controls : Type := {
  clear : string -> playwright_result unit;
  fill : string -> string -> playwright_result unit
}.

(** [fill_text(selector, text, timeout)] *)
Definition fill_text (self : BasePage) (ctl : Controls) (selector text : string)
    (timeout : option Z) : outcome unit :=
  element ← wait_for_element self selector timeout;
  _ ← from_playwright (clear ctl element);
  from_playwright (fill ctl element text).

End BasePage.

(** ** framework/pages/login_page.py *)

Module LoginPage.
Import PyStr config BasePage.

Definition ERROR_MESSAGE : string := ".error-message-container".
Definition LOGIN_CREDENTIALS : string :=
  "[data-test=" +:+ dquote +:+ "login-credentials" +:+ dquote +:+ "]".

(** [get_error_message()] *)
Definition get_error_message (self : BasePage) : outcome string :=
  visible ← is_element_visible self ERROR_MESSAGE None;
  if (visible : bool) then get_text self ERROR_MESSAGE None
  else Ok EmptyString.

(** [is_login_credentials_visible()] *)
Definition is_login_credentials_visible (self : BasePage) : outcome bool :=
  is_element_visible self LOGIN_CREDENTIALS None.

(** The inner loop of [get_available_usernames]: the words of a line. *)
Fixpoint collect_words (words : list string) (usernames : list string) : list string :=
  match words with
  | [] => usernames
  | word :: rest =>
      if contains "_user" word
      then collect_words rest (usernames ++ [word])
      else collect_words rest usernames
  end.

(** The outer loop: the lines of the text. *)
Fixpoint collect_lines (lines : list string) (usernames : list string) : list string :=
  match lines with
  | [] => usernames
  | line :: rest =>
      if contains "user" (lower line) && contains "_user" line
      then collect_lines rest (collect_words (split_whitespace line) usernames)
      else collect_lines rest usernames
  end.

(** [get_available_usernames()] *)
Definition get_available_usernames (self : BasePage) : outcome (list string) :=
  visible ← is_login_credentials_visible self;
  if (visible : bool) then
    credentials_text ← get_text self LOGIN_CREDENTIALS None;
    let lines := split_on (chr 10) credentials_text in
    Ok (collect_lines lines [])
  else Ok [].

Definition data_test (value : string) : string :=
  "[data-test=" +:+ dquote +:+ value +:+ dquote +:+ "]".

Definition USERNAME_INPUT : string := data_test "username".
Definition PASSWORD_INPUT : string := data_test "password".
Definition LOGIN_BUTTON : string := data_test "login-button".
Definition ERROR_BUTTON : string := ".error-button".
Definition LOGIN_LOGO : string := ".login_logo".

(** [is_loaded()] *)
Definition is_loaded (self : BasePage) : outcome bool :=
  py_and (is_element_visible self LOGIN_LOGO None)
    (py_and (is_element_visible self USERNAME_INPUT None)
       (py_and (is_element_visible self PASSWORD_INPUT None)
          (is_element_visible self LOGIN_BUTTON None))).

(** [enter_username(username)] *)
Definition enter_username (self : BasePage) (ctl : Controls) (username : string)
    : outcome unit :=
  fill_text self ctl USERNAME_INPUT username None.

(** [enter_password(password)] *)
Definition enter_password (self : BasePage) (ctl : Controls) (password : string)
    : outcome unit :=
  fill_text self ctl PASSWORD_INPUT password None.

(** [click_login()] *)
Definition click_login (self : BasePage) : outcome unit :=
  click_element self LOGIN_BUTTON None.

(** [login(username, password)] *)
Definition login (self : BasePage) (ctl : Controls) (username password : string)
    : outcome unit :=
  _ ← enter_username self ctl username;
  _ ← enter_password self ctl password;
  click_login self.

(** [login_standard_user()] *)
Definition login_standard_user (self : BasePage) (ctl : Controls) : outcome unit :=
  login self ctl (standard_user (config self)) (standard_password (config self)).

(** [login_locked_user()] *)
Definition login_locked_user (self : BasePage) (ctl : Controls) : outcome unit :=
  login self ctl (locked_user (config self)) (standard_password (config self)).

(** [login_problem_user()] *)
Definition login_problem_user (self : BasePage) (ctl : Controls) : outcome unit :=
  login self ctl (problem_user (config self)) (standard_password (config self)).

(** [is_error_message_displayed()] *)
Definition is_error_message_displayed (self : BasePage) : outcome bool :=
  is_element_visible self ERROR_MESSAGE None.

End LoginPage.

(** ** framework/pages/inventory_page.py *)

Module InventoryPage.
Import PyStr PyNum PyList config BasePage.

Definition data_test (value : string) : string :=
  "[data-test=" +:+ dquote +:+ value +:+ dquote +:+ "]".

Definition INVENTORY_ITEM_NAME : string := data_test "inventory-item-name".
Definition INVENTORY_ITEM_PRICE : string := data_test "inventory-item-price".
Definition SHOPPING_CART_BADGE : string := ".shopping_cart_badge".

(** [get_product_names()] *)
Definition get_product_names (self : BasePage) : list string :=
  map or_empty (all_text_content (page self) INVENTORY_ITEM_NAME).

(** [get_product_prices()] *)
Definition get_product_prices (self : BasePage) : list string :=
  map or_empty (all_text_content (page self) INVENTORY_ITEM_PRICE).

(** The local [test_id] of [add_product_to_cart], of
    [remove_product_from_cart] and of [is_product_in_cart]. *)
Definition test_id (product_name : string) : string :=
  replace (replace (lower product_name) " " "-") "'" EmptyString.

(** [add_product_to_cart(product_name)] *)
Definition add_product_to_cart (self : BasePage) (product_name : string) : outcome unit :=
  let test_id := test_id product_name in
  let add_button_selector := data_test ("add-to-cart-" +:+ test_id) in
  click_element self add_button_selector None.

(** [remove_product_from_cart(product_name)] *)
Definition remove_product_from_cart (self : BasePage) (product_name : string)
    : outcome unit :=
  let test_id := test_id product_name in
  let remove_button_selector := data_test ("remove-" +:+ test_id) in
  click_element self remove_button_selector None.

(** [verify_products_sorted_alphabetically(ascending)] *)
Definition verify_products_sorted_alphabetically (self : BasePage) (ascending : bool)
    : bool :=
  let product_names := get_product_names self in
  let sorted_names :=
    if ascending then sorted str_ltb product_names
    else sorted_reverse str_ltb product_names in
  list_eqb String.eqb product_names sorted_names.

(** [float(price.replace('$', ''))] *)
Definition price_value (price : string) : outcome float :=
  py_float (replace price "$" EmptyString).

(** [verify_products_sorted_by_price(ascending)] *)
Definition verify_products_sorted_by_price (self : BasePage) (ascending : bool)
    : outcome bool :=
  let prices := get_product_prices self in
  price_values ← comprehension price_value prices;
  let sorted_prices :=
    if ascending then sorted fltb price_values
    else sorted_reverse fltb price_values in
  Ok (list_eqb feqb price_values sorted_prices).

(** [get_cart_badge_count()] *)
Definition get_cart_badge_count (self : BasePage) : outcome Z :=
  visible ← is_element_visible self SHOPPING_CART_BADGE None;
  if (visible : bool) then
    badge_text ← get_text self SHOPPING_CART_BADGE None;
    if isdigit badge_text then py_int badge_text else Ok 0
  else Ok 0.

Definition PAGE_TITLE : string := data_test "title".
Definition INVENTORY_CONTAINER : string := data_test "inventory-container".

(** [is_loaded()] *)
Definition is_loaded (self : BasePage) : outcome bool :=
  py_and (is_element_visible self PAGE_TITLE None)
    (py_and (is_element_visible self INVENTORY_CONTAINER None)
       (title ← get_text self PAGE_TITLE None; Ok (String.eqb title "Products"))).

(** [verify_products_page()] *)
Definition verify_products_page (self : BasePage) : outcome bool :=
  py_and (is_element_visible self PAGE_TITLE None)
    (title ← get_text self PAGE_TITLE None; Ok (contains "Products" title)).

(** [is_product_in_cart(product_name)] *)
Definition is_product_in_cart (self : BasePage) (product_name : string) : outcome bool :=
  let test_id := test_id product_name in
  let remove_button_selector := data_test ("remove-" +:+ test_id) in
  is_element_visible self remove_button_selector None.

End InventoryPage.

(** ** framework/pages/cart_page.py *)

Module CartPage.
Import PyStr PyNum PyList config BasePage.

Definition data_test (value : string) : string :=
  "[data-test=" +:+ dquote +:+ value +:+ dquote +:+ "]".

Definition CART_ITEM_PRICE : string := data_test "inventory-item-price".
Definition CART_QUANTITY : string := data_test "item-quantity".
Definition SHOPPING_CART_BADGE : string := data_test "shopping-cart-badge".

(** [get_cart_item_prices()] *)
Definition get_cart_item_prices (self : BasePage) : list string :=
  map or_empty (all_text_content (page self) CART_ITEM_PRICE).

(** The body of the loop of [get_cart_item_quantities]. *)
Definition quantity_of (text : option string) : outcome Z :=
  let qty_text := match text with
                  | Some (String _ _ as s) => s
                  | _ => "0"
                  end in
  if isdigit qty_text then py_int qty_text else Ok 0.

(** [get_cart_item_quantities()] *)
Definition get_cart_item_quantities (self : BasePage) : outcome (list Z) :=
  for_each (fun (quantities : list Z) element =>
              q ← quantity_of element; Ok (quantities ++ [q])%list)
    (all_text_content (page self) CART_QUANTITY) [].

(** The local [data_test_name] of [remove_item_by_name]. *)
Definition data_test_name (item_name : string) : string :=
  replace
    (replace
       (replace (replace (lower item_name) " " "-") "." EmptyString)
       "(" EmptyString)
    ")" EmptyString.

(** [remove_item_by_name(item_name)] *)
Definition remove_item_by_name (self : BasePage) (item_name : string) : outcome unit :=
  let data_test_name := data_test_name item_name in
  let remove_button_selector := data_test ("remove-" +:+ data_test_name) in
  click_element self remove_button_selector None.

(** The loop of [calculate_total_price], from index [i] on. *)
Fixpoint total_from (quantities : list Z) (i : nat) (prices : list string) (total : float)
    : outcome float :=
  match prices with
  | [] => Ok total
  | price :: rest =>
      if (i <? length quantities)%nat then
        price_value ← py_float (replace price "$" EmptyString);
        quantity ← getitem quantities i;
        amount ← fmul_int price_value quantity;
        total_from quantities (S i) rest (fadd total amount)
      else total_from quantities (S i) rest total
  end.

(** [calculate_total_price()] *)
Definition calculate_total_price (self : BasePage) : outcome float :=
  let prices := get_cart_item_prices self in
  quantities ← get_cart_item_quantities self;
  total_from quantities 0 prices fzero.

(** [get_cart_badge_count()] *)
Definition get_cart_badge_count (self : BasePage) : outcome Z :=
  visible ← is_element_visible self SHOPPING_CART_BADGE None;
  if (visible : bool) then
    badge_text ← get_text self SHOPPING_CART_BADGE None;
    try_except (py_int badge_text) ValueError (Ok 0)
  else Ok 0.

Definition PAGE_TITLE : string := data_test "title".

(** [is_loaded()] *)
Definition is_loaded (self : BasePage) : outcome bool :=
  py_and (is_element_visible self PAGE_TITLE None)
    (title ← get_text self PAGE_TITLE None; Ok (String.eqb title "Your Cart")).

(** [verify_cart_page()] *)
Definition verify_cart_page (self : BasePage) : outcome bool :=
  py_and (is_element_visible self PAGE_TITLE None)
    (title ← get_text self PAGE_TITLE None; Ok (contains "Your Cart" title)).

End CartPage.

(** ** The specification's wording *)

Module Spec.
Import PyStr PyNum BasePage.

Definition wait_succeeds (r : playwright_result unit) : bool :=
  match r with
  | Done _ => true
  | TimedOut | Failed => false
  end.

(** An element is visible, with the text content [text]: the wait for
    its visibility succeeds whatever the timeout, and its text can be
    read. *)
Definition shown (p : Page) (selector : string) (text : option string) : Prop :=
  (forall t, wait_for p selector "visible" t = Done tt) /\
  text_content p selector = Done text.

(** An element is not visible: the wait for its visibility does not
    succeed, whatever the timeout. *)
Definition hidden (p : Page) (selector : string) : Prop :=
  forall t, wait_succeeds (wait_for p selector "visible" t) = false.

(** Every character replaced by its image under [f]. *)
Fixpoint map_chars (f : ascii -> ascii) (s : string) : string :=
  match s with
  | EmptyString => EmptyString
  | String c rest => String (f c) (map_chars f rest)
  end.

(** Every character that satisfies [p] removed. *)
Fixpoint remove_chars (p : ascii -> bool) (s : string) : string :=
  match s with
  | EmptyString => EmptyString
  | String c rest => if p c then remove_chars p rest else String c (remove_chars p rest)
  end.

Definition space : ascii := chr 32.
Definition hyphen : ascii := chr 45.
Definition apostrophe : ascii := chr 39.
Definition full_stop : ascii := chr 46.
Definition left_parenthesis : ascii := chr 40.
Definition right_parenthesis : ascii := chr 41.
Definition newline : ascii := chr 10.

Definition spaces_to_hyphens (s : string) : string :=
  map_chars (fun c => if Ascii.eqb c space then hyphen else c) s.

Definition remove_apostrophes (s : string) : string :=
  remove_chars (Ascii.eqb apostrophe) s.

(** The inventory page's rule: lowercase, spaces to hyphens, apostrophes
    removed. *)
Definition identifier (name : string) : string :=
  remove_apostrophes (spaces_to_hyphens (lower name)).

(** The additional stripping of the cart page: full stops and
    parentheses removed. *)
Definition strip_punctuation (s : string) : string :=
  remove_chars
    (fun c => Ascii.eqb c full_stop || Ascii.eqb c left_parenthesis
              || Ascii.eqb c right_parenthesis) s.

Definition has_apostrophe (s : string) : bool :=
  negb (all_chars (fun c => negb (Ascii.eqb apostrophe c)) s).

(** The user names of a credentials hint: of the lines that contain
    [_user], in order, the whitespace-separated tokens that contain
    [_user]. *)
Definition usernames_in (text : string) : list string :=
  flat_map
    (fun line => List.filter (contains "_user") (split_whitespace line))
    (List.filter (contains "_user") (split_on newline text)).

(** [s] is the sort of [l] for the order [le]. *)
Definition is_sort_of {A : Type} (le : A -> A -> Prop) (l s : list A) : Prop :=
  Permutation l s /\ Sorted le s.

(** The lexicographic order of names, and its reverse. *)
Definition lex_le (a b : string) : Prop := a = b \/ str_ltb a b = true.

Definition name_order (ascending : bool) (a b : string) : Prop :=
  if ascending then lex_le a b else lex_le b a.

(** The order of numbers, and its reverse. *)
Definition num_le (a b : float) : Prop := SFleb a b = true.

Definition price_order (ascending : bool) (a b : float) : Prop :=
  if ascending then num_le a b else num_le b a.

(** Equality of numbers. *)
Definition num_eq (a b : float) : Prop := feqb a b = true.

(** The sum of [value * quantity] over aligned values and quantities,
    added up from [0.0] in the order of the lists. *)
Definition total_of (values factors : list float) : float :=
  fold_left (fun total '(v, f) => fadd total (fmul v f)) (combine values factors) fzero.

(** The four user categories. *)
Definition known_categories : list string :=
  ["standard"; "locked"; "problem"; "performance"].

(** The user name of a category, the standard user's for any other
    string. *)
Definition username_of (cfg : config.Config) (user_type : string) : string :=
  if String.eqb user_type "locked" then config.locked_user cfg
  else if String.eqb user_type "problem" then config.problem_user cfg
  else if String.eqb user_type "performance" then config.performance_user cfg
  else config.standard_user cfg.

(** [c not in s] for a character [c]. *)
Definition lacks (c : ascii) (s : string) : bool :=
  all_chars (fun x => negb (Ascii.eqb c x)) s.

(** A name with none of the characters on which the rules of the two
    pages differ: apostrophe, full stop and parentheses. *)
Definition plain_name (s : string) : bool :=
  lacks apostrophe s && lacks full_stop s && lacks left_parenthesis s
  && lacks right_parenthesis s.

(** [sep.join(parts)] for a separator of one character. *)
Fixpoint join (sep : ascii) (parts : list string) : string :=
  match parts with
  | [] => EmptyString
  | [part] => part
  | part :: rest => part +:+ String sep (join sep rest)
  end.

(** [element.text_content() or '0'] *)
Definition text_or_zero (text : option string) : string :=
  match text with
  | Some (String _ _ as s) => s
  | _ => "0"
  end.

(** A text that [str.isdigit] accepts and that is no integer literal:
    a digit in it is no decimal digit. *)
Definition digits_without_value (s : string) : bool :=
  isdigit s && negb (all_chars is_ascii_digit s).

End Spec.

(** ** Pages and settings the statements are instantiated at *)

Module Examples.
Import PyStr PyNum config BasePage.

(** No element is ever visible. *)
Definition blank_page : Page := {|
  wait_for := fun _ _ _ => TimedOut;
  text_content := fun _ => TimedOut;
  all_text_content := fun _ => [];
  click := fun _ => TimedOut
|}.

(** The element [selector] is shown with the text [text], and nothing
    else is. *)
Definition page_showing (selector : string) (text : string) : Page := {|
  wait_for := fun sel _ _ => if String.eqb sel selector then Done tt else TimedOut;
  text_content := fun sel => if String.eqb sel selector then Done (Some text) else TimedOut;
  all_text_content := fun _ => [];
  click := fun _ => TimedOut
|}.

(** A cart or an inventory with the given price and quantity texts. *)
Definition page_listing (prices quantities : list string) : Page := {|
  wait_for := fun _ _ _ => TimedOut;
  text_content := fun _ => TimedOut;
  all_text_content := fun sel =>
    if String.eqb sel CartPage.CART_ITEM_PRICE then map Some prices
    else if String.eqb sel CartPage.CART_QUANTITY then map Some quantities
    else [];
  click := fun _ => TimedOut
|}.

(** An inventory with the given product names. *)
Definition page_naming (names : list string) : Page := {|
  wait_for := fun _ _ _ => TimedOut;
  text_content := fun _ => TimedOut;
  all_text_content := fun sel =>
    if String.eqb sel InventoryPage.INVENTORY_ITEM_NAME then map Some names else [];
  click := fun _ => TimedOut
|}.

Definition on (p : Page) : BasePage := BasePage.init p default_config.

(** A process in which the settings cannot be built any more; the
    lookups made in it start from a module variable that is set. *)
Definition no_environment : Environment := {|
  load_settings := Raise ValueError;
  makedirs := fun _ => Raise OSError;
  dirname := fun path => path
|}.

(** SUPERSCRIPT TWO as a text. *)
Definition superscript_two : string := String (chr 178) EmptyString.

(** Three prices in ascending order, and their values. *)
Definition ascending_prices : list string := ["$7.99"; "$9.99"; "$15.99"].

Definition ascending_values : list float :=
  [of_decimal false 799 (-2); of_decimal false 999 (-2); of_decimal false 1599 (-2)].

(** A cart of three prices of which the page shows two quantities. *)
Definition cart_prices : list string := ["$29.99"; "$9.99"; "$15.99"].

Definition cart_quantities : list string := ["1"; "2"].

(** A credentials hint of three lines. *)
Definition hint_text : string :=
  "Accepted usernames are:" +:+ String Spec.newline
    ("standard_user locked_out_user" +:+ String Spec.newline
       "Password for all users: secret_sauce").

(** Every element is shown, with the text [text]. *)
Definition page_with_text (text : string) : Page := {|
  wait_for := fun _ _ _ => Done tt;
  text_content := fun _ => Done (Some text);
  all_text_content := fun _ => [];
  click := fun _ => Done tt
|}.

(** Text is entered without failure. *)
Definition ready_controls : Controls := {|
  clear := fun _ => Done tt;
  fill := fun _ _ => Done tt
|}.

(** A process whose settings load and whose directories cannot be
    made. *)
Definition read_only_environment : Environment := {|
  load_settings := Ok default_config;
  makedirs := fun _ => Raise OSError;
  dirname := fun path => path
|}.

End Examples.

(** * Properties *)

(** ** The embedding on concrete inputs *)

Section Evaluation.
Import PyStr PyNum PyList Spec BasePage Examples.

Example lower_latin1 :
  lower "Sauce Labs Bolt T-Shirt" = "sauce labs bolt t-shirt" /\
  lower (String (chr 201) (String (chr 215) EmptyString))
  = String (chr 233) (String (chr 215) EmptyString).
Proof. split; reflexivity. Qed.

Example replace_leftmost :
  replace "aaa" "aa" "b" = "ba" /\
  replace "abcabc" "bc" "XYZ" = "aXYZaXYZ" /\
  replace "abc" EmptyString "-" = "-a-b-c-".
Proof. repeat split; reflexivity. Qed.

Example split_lines_and_words :
  split_on newline ("a" +:+ String newline (String newline ("b c" +:+ String newline EmptyString)))
  = ["a"; EmptyString; "b c"; EmptyString] /\
  split_on newline EmptyString = [EmptyString] /\
  split_whitespace "  a  b c " = ["a"; "b"; "c"] /\
  split_whitespace EmptyString = [].
Proof. repeat split; reflexivity. Qed.

Example int_literals :
  py_int " 12 " = Ok 12 /\
  py_int "-5" = Ok (-5) /\
  py_int "1_000" = Ok 1000 /\
  py_int "007" = Ok 7 /\
  py_int "1__0" = Raise ValueError /\
  py_int "- 5" = Raise ValueError /\
  py_int "5.0" = Raise ValueError /\
  py_int EmptyString = Raise ValueError.
Proof. repeat split; reflexivity. Qed.

Example digits_that_are_no_integer :
  isdigit "12" = true /\
  isdigit EmptyString = false /\
  isdigit superscript_two = true /\
  py_int superscript_two = Raise ValueError.
Proof. repeat split; reflexivity. Qed.

(** [float('29.99')] is [0x1.dfd70a3d70a3dp+4], and so on. *)
Example float_literals :
  py_float "29.99" = Ok (S754_finite false 8441434551552573 (-48)) /\
  py_float "9.99" = Ok (S754_finite false 5623870034678907 (-49)) /\
  py_float "49.97" = Ok (S754_finite false 7032652293115740 (-47)) /\
  py_float " 1.5 " = Ok (S754_finite false 6755399441055744 (-52)) /\
  py_float "1_0.0_1" = Ok (S754_finite false 5635129033747333 (-49)) /\
  py_float "-.5e-3" = Ok (S754_finite true 4611686018427388 (-63)) /\
  py_float "4.9e-324" = Ok (S754_finite false 1 (-1074)) /\
  py_float "1e400" = Ok (S754_infinity false) /\
  py_float "-0" = Ok (S754_zero true) /\
  py_float "-Infinity" = Ok (S754_infinity true) /\
  py_float "NaN" = Ok S754_nan /\
  py_float "1e" = Raise ValueError /\
  py_float "1_" = Raise ValueError /\
  py_float EmptyString = Raise ValueError.
Proof. repeat split; vm_compute; reflexivity. Qed.

Example int_operands :
  float_of_int 9007199254740993 = Ok (S754_finite false 4503599627370496 1) /\
  float_of_int (2 ^ 1024) = Raise OverflowError.
Proof. split; vm_compute; reflexivity. Qed.

Example exception_classes :
  issubclass PlaywrightTimeoutError Exception = true /\
  issubclass ValueError Exception = true /\
  issubclass KeyboardInterrupt Exception = false /\
  issubclass PlaywrightError ValueError = false.
Proof. repeat split; reflexivity. Qed.

(** Capitals sort before small letters. *)
Example names_in_order :
  InventoryPage.verify_products_sorted_alphabetically
    (on (page_naming ["Sauce Labs Backpack"; "Sauce Labs Bike Light"; "Zebra"; "apple"]))
    true = true /\
  InventoryPage.verify_products_sorted_alphabetically
    (on (page_naming ["Sauce Labs Backpack"; "Sauce Labs Bike Light"; "Zebra"; "apple"]))
    false = false /\
  InventoryPage.verify_products_sorted_alphabetically
    (on (page_naming ["b"; "a"; "a"])) false = true.
Proof. repeat split; reflexivity. Qed.

Example prices_in_order :
  InventoryPage.verify_products_sorted_by_price
    (on (page_listing ascending_prices [])) true = Ok true /\
  InventoryPage.verify_products_sorted_by_price
    (on (page_listing ascending_prices [])) false = Ok false /\
  InventoryPage.verify_products_sorted_by_price
    (on (page_listing ["$9.99"; "9.990"; "$7"] [])) false = Ok true.
Proof. repeat split; vm_compute; reflexivity. Qed.

(** A price that is no number makes the checks that read it raise. *)
Example price_without_number :
  CartPage.calculate_total_price (on (page_listing ["$29.99"; "free"] ["1"; "1"]))
  = Raise ValueError /\
  CartPage.calculate_total_price (on (page_listing ["$29.99"; "free"] ["1"]))
  = py_float "29.99" /\
  InventoryPage.verify_products_sorted_by_price
    (on (page_listing ["$29.99"; "free"] [])) true = Raise ValueError.
Proof. repeat split; vm_compute; reflexivity. Qed.

End Evaluation.

(** ** Strings *)

Section StringFacts.
Import PyStr Spec.

Lemma prefix_single (a c : ascii) (rest : string) :
  String.prefix (String a EmptyString) (String c rest) = Ascii.eqb a c.
Proof.
  simpl. destruct (ascii_dec a c) as [->|Hne].
  - rewrite Ascii.eqb_refl. now destruct rest.
  - symmetry. now apply Ascii.eqb_neq.
Qed.

(** Replacing a character by a character is a map over the characters. *)
Lemma replace_char_char (a b : ascii) (s : string) :
  replace s (String a EmptyString) (String b EmptyString)
  = map_chars (fun c => if Ascii.eqb c a then b else c) s.
Proof.
  unfold replace. induction s as [|c rest IH]; [reflexivity|].
  cbn [replace_from map_chars]. rewrite prefix_single, (Ascii.eqb_sym a c).
  destruct (Ascii.eqb c a); cbn; now rewrite IH.
Qed.

(** Replacing a character by nothing removes it. *)
Lemma replace_char_empty (a : ascii) (s : string) :
  replace s (String a EmptyString) EmptyString = remove_chars (Ascii.eqb a) s.
Proof.
  unfold replace. induction s as [|c rest IH]; [reflexivity|].
  cbn [replace_from remove_chars]. rewrite prefix_single.
  destruct (Ascii.eqb a c); cbn; now rewrite IH.
Qed.

Lemma remove_chars_ext (p q : ascii -> bool) (s : string) :
  (forall c, p c = q c) -> remove_chars p s = remove_chars q s.
Proof.
  intros Hpq. induction s as [|c rest IH]; [reflexivity|].
  cbn. now rewrite Hpq, IH.
Qed.

(** Two removals in a row remove what either removes. *)
Lemma remove_chars_twice (p q : ascii -> bool) (s : string) :
  remove_chars q (remove_chars p s) = remove_chars (fun c => p c || q c) s.
Proof.
  induction s as [|c rest IH]; [reflexivity|].
  cbn. destruct (p c); cbn; [assumption|].
  destruct (q c); now rewrite IH.
Qed.

Lemma remove_chars_comm (p q : ascii -> bool) (s : string) :
  remove_chars q (remove_chars p s) = remove_chars p (remove_chars q s).
Proof.
  rewrite !remove_chars_twice. apply remove_chars_ext. intros c. apply orb_comm.
Qed.

(** Nothing is removed from a string that has no character to remove. *)
Lemma remove_chars_none (p : ascii -> bool) (s : string) :
  all_chars (fun c => negb (p c)) s = true -> remove_chars p s = s.
Proof.
  induction s as [|c rest IH]; [reflexivity|].
  cbn. destruct (p c); cbn; [discriminate|].
  intros H. now rewrite IH.
Qed.

Lemma all_chars_map (p : ascii -> bool) (f : ascii -> ascii) (s : string) :
  all_chars p (map_chars f s) = all_chars (fun c => p (f c)) s.
Proof.
  induction s as [|c rest IH]; [reflexivity|]. cbn. now rewrite IH.
Qed.

Lemma lower_map_chars (s : string) : lower s = map_chars lower_char s.
Proof.
  induction s as [|c rest IH]; [reflexivity|]. cbn. now rewrite IH.
Qed.

Lemma all_chars_impl (p q : ascii -> bool) (s : string) :
  (forall c, p c = true -> q c = true) ->
  all_chars p s = true -> all_chars q s = true.
Proof.
  intros Hpq. induction s as [|c rest IH]; [reflexivity|].
  cbn. intros [Hc Hrest]%andb_prop. rewrite (Hpq _ Hc). now apply IH.
Qed.

(** No code point becomes an apostrophe when it is lowercased or turned
    from a space into a hyphen. *)
Lemma no_new_apostrophe (c : ascii) :
  Ascii.eqb apostrophe c = false ->
  Ascii.eqb apostrophe
    ((fun c => if Ascii.eqb c space then hyphen else c) (lower_char c)) = false.
Proof.
  destruct c as [[] [] [] [] [] [] [] []]; vm_compute; congruence.
Qed.

(** The inventory page's chain of calls is the rule of the specification. *)
Lemma test_id_identifier (name : string) :
  InventoryPage.test_id name = identifier name.
Proof.
  unfold InventoryPage.test_id, identifier, spaces_to_hyphens, remove_apostrophes.
  change " " with (String space EmptyString).
  change "-" with (String hyphen EmptyString).
  change "'" with (String apostrophe EmptyString).
  now rewrite replace_char_char, replace_char_empty.
Qed.

(** The cart page's chain of calls: lowercase, spaces to hyphens, full
    stops and parentheses removed. *)
Lemma data_test_name_rule (name : string) :
  CartPage.data_test_name name = strip_punctuation (spaces_to_hyphens (lower name)).
Proof.
  unfold CartPage.data_test_name, strip_punctuation, spaces_to_hyphens.
  change " " with (String space EmptyString).
  change "-" with (String hyphen EmptyString).
  change "." with (String full_stop EmptyString).
  change "(" with (String left_parenthesis EmptyString).
  change ")" with (String right_parenthesis EmptyString).
  rewrite replace_char_char, !replace_char_empty, !remove_chars_twice.
  apply remove_chars_ext. intros c.
  now rewrite orb_assoc, (Ascii.eqb_sym full_stop), (Ascii.eqb_sym left_parenthesis),
    (Ascii.eqb_sym right_parenthesis).
Qed.

End StringFacts.

(** ** Control identifiers derived from names *)

Section Identifiers.
Import PyStr Spec BasePage.

Lemma no_apostrophe_after_rule (name : string) :
  has_apostrophe name = false ->
  remove_apostrophes (spaces_to_hyphens (lower name)) = spaces_to_hyphens (lower name).
Proof.
  unfold has_apostrophe, remove_apostrophes, spaces_to_hyphens.
  intros H%negb_false_iff. apply remove_chars_none.
  rewrite lower_map_chars, !all_chars_map.
  revert H. apply all_chars_impl. intros c Hc.
  apply negb_true_iff in Hc. apply negb_true_iff. now apply no_new_apostrophe.
Qed.

(** X3: for every name, stripping the punctuation from the inventory
    page's identifier gives the cart page's identifier without its
    apostrophes. *)
Lemma identifiers_related (name : string) :
  strip_punctuation (InventoryPage.test_id name)
  = remove_apostrophes (CartPage.data_test_name name).
Proof.
  rewrite test_id_identifier, data_test_name_rule.
  unfold identifier, strip_punctuation, remove_apostrophes.
  apply remove_chars_comm.
Qed.

(** C2: for every product name, [add_product_to_cart] and
    [remove_product_from_cart] click the control whose identifier is the
    name lowercased, with every space replaced by a hyphen and every
    apostrophe removed; for "Sauce Labs Backpack" the identifier is
    "sauce-labs-backpack" and for "Sauce Labs Bolt T-Shirt" it is
    "sauce-labs-bolt-t-shirt". *)
Theorem inventory_identifier_derivation (self : BasePage) (product_name : string) :
  InventoryPage.test_id product_name = identifier product_name /\
  InventoryPage.add_product_to_cart self product_name
  = click_element self
      (InventoryPage.data_test ("add-to-cart-" +:+ identifier product_name)) None /\
  InventoryPage.remove_product_from_cart self product_name
  = click_element self
      (InventoryPage.data_test ("remove-" +:+ identifier product_name)) None /\
  InventoryPage.test_id "Sauce Labs Backpack" = "sauce-labs-backpack" /\
  InventoryPage.test_id "Sauce Labs Bolt T-Shirt" = "sauce-labs-bolt-t-shirt".
Proof.
  unfold InventoryPage.add_product_to_cart, InventoryPage.remove_product_from_cart.
  rewrite test_id_identifier. repeat split; reflexivity.
Qed.

(** C1: for the item name "Sauce Labs Men's Tee" the cart page derives
    an identifier that keeps the apostrophe, where the inventory page's
    derivations for the same remove control drop it: the cart page's
    identifier is not the inventory page's with '.', '(' and ')'
    removed, as the claim has it. *)
Theorem cart_identifier_keeps_apostrophe :
  CartPage.data_test_name "Sauce Labs Men's Tee" = "sauce-labs-men's-tee" /\
  InventoryPage.test_id "Sauce Labs Men's Tee" = "sauce-labs-mens-tee" /\
  strip_punctuation (InventoryPage.test_id "Sauce Labs Men's Tee") = "sauce-labs-mens-tee" /\
  CartPage.data_test_name "Sauce Labs Men's Tee"
  <> strip_punctuation (InventoryPage.test_id "Sauce Labs Men's Tee").
Proof. repeat split; try reflexivity. vm_compute. discriminate. Qed.

(** Apostrophes apart, the two derivations are related as stated: for a
    name without apostrophe the cart page's identifier is the inventory
    page's with '.', '(' and ')' removed. *)
Lemma cart_identifier_without_apostrophe (item_name : string) :
  has_apostrophe item_name = false ->
  CartPage.data_test_name item_name
  = strip_punctuation (InventoryPage.test_id item_name).
Proof.
  intros Hno. rewrite data_test_name_rule, test_id_identifier. unfold identifier.
  now rewrite no_apostrophe_after_rule.
Qed.

End Identifiers.

(** ** Visibility checks and the reads guarded by them *)

Section Visibility.
Import PyStr PyNum config BasePage Spec Examples.

(** Every failure of a Playwright call is an [Exception]. *)
Lemma playwright_raises_exceptions {A : Type} (r : playwright_result A) (e : exn_class) :
  from_playwright r = Raise e -> issubclass e Exception = true.
Proof. destruct r; cbn; intros [= <-]; reflexivity. Qed.

Lemma is_element_visible_value (self : BasePage) (selector : string) (timeout : option Z) :
  is_element_visible self selector timeout
  = Ok (match wait_for (page self) selector "visible" (timeout_or timeout 5000) with
        | Done _ => true
        | TimedOut | Failed => false
        end).
Proof.
  unfold is_element_visible.
  destruct (wait_for (page self) selector "visible" (timeout_or timeout 5000));
    reflexivity.
Qed.

(** C4: for every selector and every timeout, given or left out,
    [is_element_visible] returns a boolean and never raises: it returns
    [True] when the wait for visibility succeeds and [False] for every
    failure of that wait, the expiry of the timeout included. *)
Theorem is_element_visible_never_raises
    (self : BasePage) (selector : string) (timeout : option Z) :
  (is_element_visible self selector timeout = Ok true \/
   is_element_visible self selector timeout = Ok false) /\
  ~ raises (is_element_visible self selector timeout) /\
  is_element_visible self selector timeout
  = Ok (match wait_for (page self) selector "visible" (timeout_or timeout 5000) with
        | Done _ => true
        | TimedOut | Failed => false
        end).
Proof.
  rewrite is_element_visible_value.
  destruct (wait_for (page self) selector "visible" (timeout_or timeout 5000));
    (split; [auto | split; [intros [e He]; discriminate | reflexivity]]).
Qed.

(** A hidden element is reported not visible. *)
Lemma hidden_invisible (self : BasePage) (selector : string) :
  hidden (page self) selector -> is_element_visible self selector None = Ok false.
Proof.
  intros Hhidden. rewrite is_element_visible_value.
  specialize (Hhidden (timeout_or None 5000)).
  now destruct (wait_for (page self) selector "visible" (timeout_or None 5000)).
Qed.

(** A shown element is reported visible and its text is read. *)
Lemma shown_visible (self : BasePage) (selector : string) (text : option string) :
  shown (page self) selector text ->
  is_element_visible self selector None = Ok true /\
  get_text self selector None = Ok (or_empty text).
Proof.
  intros [Hwait Htext]. split.
  - rewrite is_element_visible_value, Hwait. reflexivity.
  - unfold get_text, wait_for_element. rewrite Hwait. cbn. rewrite Htext. reflexivity.
Qed.

(** C8: [get_error_message] returns the empty string, and does not raise,
    whenever the error banner is not visible; when the banner is shown it
    returns the banner's text content. *)
Theorem get_error_message_spec (self : BasePage) :
  (hidden (page self) LoginPage.ERROR_MESSAGE ->
   LoginPage.get_error_message self = Ok EmptyString) /\
  (forall text, shown (page self) LoginPage.ERROR_MESSAGE text ->
   LoginPage.get_error_message self = Ok (or_empty text)).
Proof.
  split.
  - intros Hhidden%hidden_invisible. unfold LoginPage.get_error_message.
    rewrite Hhidden. reflexivity.
  - intros text Hshown. destruct (shown_visible self _ _ Hshown) as [Hvis Htext].
    unfold LoginPage.get_error_message. rewrite Hvis. cbn. exact Htext.
Qed.

Lemma get_error_message_spec_witness :
  (hidden blank_page LoginPage.ERROR_MESSAGE /\
   LoginPage.get_error_message (on blank_page) = Ok EmptyString) /\
  (shown (page_showing LoginPage.ERROR_MESSAGE "Epic sadface: Sorry, this user has been locked out.")
     LoginPage.ERROR_MESSAGE (Some "Epic sadface: Sorry, this user has been locked out.") /\
   LoginPage.get_error_message
     (on (page_showing LoginPage.ERROR_MESSAGE "Epic sadface: Sorry, this user has been locked out."))
   = Ok "Epic sadface: Sorry, this user has been locked out.").
Proof.
  assert (Hhidden : hidden blank_page LoginPage.ERROR_MESSAGE)
    by (intros t; reflexivity).
  assert (Hshown : shown
            (page_showing LoginPage.ERROR_MESSAGE "Epic sadface: Sorry, this user has been locked out.")
            LoginPage.ERROR_MESSAGE
            (Some "Epic sadface: Sorry, this user has been locked out."))
    by (split; [intros t|]; reflexivity).
  split; split; try assumption.
  - exact (proj1 (get_error_message_spec (on blank_page)) Hhidden).
  - exact (proj2 (get_error_message_spec (on (page_showing _ _))) _ Hshown).
Defined.

(** The cart page's badge count is [0] when the badge is not visible and
    when its text is no integer literal. *)
Lemma cart_badge_count_zero (self : BasePage) :
  (hidden (page self) CartPage.SHOPPING_CART_BADGE ->
   CartPage.get_cart_badge_count self = Ok 0) /\
  (forall text, shown (page self) CartPage.SHOPPING_CART_BADGE text ->
   raises (py_int (or_empty text)) ->
   CartPage.get_cart_badge_count self = Ok 0).
Proof.
  split.
  - intros Hhidden%hidden_invisible. unfold CartPage.get_cart_badge_count.
    rewrite Hhidden. reflexivity.
  - intros text Hshown [e He].
    destruct (shown_visible self _ _ Hshown) as [Hvis Htext].
    unfold CartPage.get_cart_badge_count. rewrite Hvis. cbn. rewrite Htext. cbn.
    rewrite He. unfold py_int in He.
    destruct (take_sign _) as [neg body]. destruct (digitpart _ _ _); [discriminate|].
    injection He as <-. reflexivity.
Qed.

(** The inventory page's badge count is [0] when the badge is not visible
    and when its text is not made of digits. *)
Lemma inventory_badge_count_zero (self : BasePage) :
  (hidden (page self) InventoryPage.SHOPPING_CART_BADGE ->
   InventoryPage.get_cart_badge_count self = Ok 0) /\
  (forall text, shown (page self) InventoryPage.SHOPPING_CART_BADGE text ->
   isdigit (or_empty text) = false ->
   InventoryPage.get_cart_badge_count self = Ok 0).
Proof.
  split.
  - intros Hhidden%hidden_invisible. unfold InventoryPage.get_cart_badge_count.
    rewrite Hhidden. reflexivity.
  - intros text Hshown Hdigit.
    destruct (shown_visible self _ _ Hshown) as [Hvis Htext].
    unfold InventoryPage.get_cart_badge_count. rewrite Hvis. cbn. rewrite Htext. cbn.
    rewrite Hdigit. reflexivity.
Qed.

(** C5: a badge that shows SUPERSCRIPT TWO has a text that is no integer
    literal; the cart page returns [0] for it, the inventory page takes
    the text for digits, converts it and raises [ValueError]. *)
Theorem inventory_badge_count_raises :
  shown (page_showing InventoryPage.SHOPPING_CART_BADGE superscript_two)
    InventoryPage.SHOPPING_CART_BADGE (Some superscript_two) /\
  py_int superscript_two = Raise ValueError /\
  isdigit superscript_two = true /\
  InventoryPage.get_cart_badge_count
    (on (page_showing InventoryPage.SHOPPING_CART_BADGE superscript_two))
  = Raise ValueError /\
  CartPage.get_cart_badge_count
    (on (page_showing CartPage.SHOPPING_CART_BADGE superscript_two))
  = Ok 0.
Proof.
  split; [split; [intros t|]; reflexivity|].
  repeat split; reflexivity.
Qed.

End Visibility.

(** ** The user names of the credentials hint *)

Section Usernames.
Import PyStr Spec BasePage Examples.

Lemma prefix_lower (p s : string) :
  String.prefix p s = true -> String.prefix (lower p) (lower s) = true.
Proof.
  revert p. induction s as [|c rest IH]; intros [|a p]; cbn; try easy.
  destruct (ascii_dec a c) as [->|]; [|discriminate].
  intros H. destruct (ascii_dec (lower_char c) (lower_char c)); [|contradiction].
  now apply IH.
Qed.

Lemma contains_lower (p s : string) :
  contains p s = true -> contains (lower p) (lower s) = true.
Proof.
  induction s as [|c rest IH]; cbn [contains lower].
  - rewrite !orb_false_r. apply (prefix_lower p EmptyString).
  - intros [H|H]%orb_prop; apply orb_true_iff.
    + left. apply (prefix_lower p (String c rest) H).
    + right. now apply IH.
Qed.

Lemma prefix_contains (p s : string) : String.prefix p s = true -> contains p s = true.
Proof. intros H. destruct s; cbn [contains]; rewrite H; reflexivity. Qed.

(** A string that contains [c p] contains [p]. *)
Lemma contains_tail (c : ascii) (p s : string) :
  contains (String c p) s = true -> contains p s = true.
Proof.
  induction s as [|a rest IH]; [discriminate|].
  cbn [contains]. intros [H|H]%orb_prop; apply orb_true_iff; right.
  - cbn in H. destruct (ascii_dec c a); [|discriminate]. now apply prefix_contains.
  - now apply IH.
Qed.

(** The first test of the line condition follows from the second. *)
Lemma line_condition (line : string) :
  contains "user" (lower line) && contains "_user" line = contains "_user" line.
Proof.
  destruct (contains "_user" line) eqn:H; [|apply andb_false_r].
  rewrite andb_true_r. apply contains_tail in H.
  apply (contains_lower "user" line H).
Qed.

Lemma collect_words_filter (words usernames : list string) :
  LoginPage.collect_words words usernames
  = (usernames ++ List.filter (contains "_user") words)%list.
Proof.
  revert usernames. induction words as [|word rest IH]; intros usernames; cbn.
  - now rewrite app_nil_r.
  - destruct (contains "_user" word); rewrite IH; [|reflexivity].
    now rewrite <- app_assoc.
Qed.

Lemma collect_lines_flat_map (lines usernames : list string) :
  LoginPage.collect_lines lines usernames
  = (usernames
     ++ flat_map (fun line => List.filter (contains "_user") (split_whitespace line))
          (List.filter (contains "_user") lines))%list.
Proof.
  revert usernames. induction lines as [|line rest IH]; intros usernames;
    cbn [LoginPage.collect_lines List.filter].
  - cbn. now rewrite app_nil_r.
  - rewrite line_condition. destruct (contains "_user" line); rewrite IH; [|reflexivity].
    rewrite collect_words_filter. cbn [flat_map]. now rewrite <- app_assoc.
Qed.

(** C9: for every credentials-hint text that is shown,
    [get_available_usernames] returns the whitespace-separated tokens that
    contain [_user], in order, of the lines that contain [_user]; when
    the credentials section is not visible it returns the empty list; in
    neither case does it raise. *)
Theorem get_available_usernames_spec (self : BasePage) :
  (hidden (page self) LoginPage.LOGIN_CREDENTIALS ->
   LoginPage.get_available_usernames self = Ok []) /\
  (forall text, shown (page self) LoginPage.LOGIN_CREDENTIALS text ->
   LoginPage.get_available_usernames self = Ok (usernames_in (or_empty text))).
Proof.
  split.
  - intros Hhidden%hidden_invisible.
    unfold LoginPage.get_available_usernames, LoginPage.is_login_credentials_visible.
    rewrite Hhidden. reflexivity.
  - intros text Hshown. destruct (shown_visible self _ _ Hshown) as [Hvis Htext].
    unfold LoginPage.get_available_usernames, LoginPage.is_login_credentials_visible.
    rewrite Hvis. cbn. rewrite Htext. cbn.
    now rewrite collect_lines_flat_map.
Qed.

Lemma get_available_usernames_spec_witness :
  (hidden blank_page LoginPage.LOGIN_CREDENTIALS /\
   LoginPage.get_available_usernames (on blank_page) = Ok []) /\
  (shown (page_showing LoginPage.LOGIN_CREDENTIALS hint_text)
     LoginPage.LOGIN_CREDENTIALS (Some hint_text) /\
   LoginPage.get_available_usernames
     (on (page_showing LoginPage.LOGIN_CREDENTIALS hint_text))
   = Ok ["standard_user"; "locked_out_user"]).
Proof.
  assert (Hhidden : hidden blank_page LoginPage.LOGIN_CREDENTIALS)
    by (intros t; reflexivity).
  assert (Hshown : shown (page_showing LoginPage.LOGIN_CREDENTIALS hint_text)
                     LoginPage.LOGIN_CREDENTIALS (Some hint_text))
    by (split; [intros t|]; reflexivity).
  split; split; try assumption.
  - exact (proj1 (get_available_usernames_spec (on blank_page)) Hhidden).
  - exact (proj2 (get_available_usernames_spec (on (page_showing _ _))) _ Hshown).
Defined.

End Usernames.

(** ** Credentials *)

Section Credentials.
Import config Spec Examples.

Lemma credentials_map_lookup (cfg : Config) (user_type : string) :
  credentials_map cfg !! user_type
  = if String.eqb user_type "performance"
    then Some (credentials (performance_user cfg) (standard_password cfg))
    else if String.eqb user_type "problem"
    then Some (credentials (problem_user cfg) (standard_password cfg))
    else if String.eqb user_type "locked"
    then Some (credentials (locked_user cfg) (standard_password cfg))
    else if String.eqb user_type "standard"
    then Some (credentials (standard_user cfg) (standard_password cfg))
    else None.
Proof.
  unfold credentials_map.
  repeat (rewrite lookup_insert; case_decide as Hk;
          [subst user_type; reflexivity
          |apply not_eq_sym, String.eqb_neq in Hk; rewrite Hk; clear Hk]).
  apply lookup_empty.
Qed.

(** With the settings available, the lookup returns the pair of the
    category's user name and the standard password, whatever the
    category. *)
Lemma get_user_credentials_value
    (env : Environment) (g g' : Globals) (cfg : Config) (user_type : string) :
  get_config env g = (Ok cfg, g') ->
  get_user_credentials env user_type g
  = (Ok (credentials (username_of cfg user_type) (standard_password cfg)), g').
Proof.
  intros Hcfg. unfold get_user_credentials. rewrite Hcfg. cbn.
  unfold dict_getitem, dict_get. rewrite !credentials_map_lookup. cbn.
  unfold username_of.
  destruct (String.eqb user_type "performance") eqn:E1.
  { apply String.eqb_eq in E1. subst. reflexivity. }
  destruct (String.eqb user_type "problem") eqn:E2.
  { apply String.eqb_eq in E2. subst. reflexivity. }
  destruct (String.eqb user_type "locked") eqn:E3; [reflexivity|].
  destruct (String.eqb user_type "standard"); reflexivity.
Qed.

Lemma credentials_fields (u p : string) :
  credentials u p !! "username" = Some u /\
  credentials u p !! "password" = Some p /\
  dom (credentials u p) = ({["username"; "password"]} : gset string).
Proof.
  unfold credentials. split; [|split].
  - now rewrite lookup_insert_ne, lookup_insert_eq.
  - now rewrite lookup_insert_eq.
  - rewrite !dom_insert_L, dom_empty_L. set_solver.
Qed.

(** C7: with the settings available, [get_user_credentials] returns for
    every string [user_type] a dictionary with the keys [username] and
    [password] and does not fail; for a [user_type] that is none of
    standard, locked, problem and performance it returns the standard
    user's credentials. *)
Theorem get_user_credentials_total
    (env : Environment) (g g' : Globals) (cfg : Config) (user_type : string) :
  get_config env g = (Ok cfg, g') ->
  (exists d u p,
     get_user_credentials env user_type g = (Ok d, g') /\
     d = credentials u p /\
     d !! "username" = Some u /\ d !! "password" = Some p /\
     dom d = ({["username"; "password"]} : gset string)) /\
  (~ In user_type known_categories ->
   get_user_credentials env user_type g
   = (Ok (credentials (standard_user cfg) (standard_password cfg)), g')).
Proof.
  intros Hcfg. rewrite (get_user_credentials_value env g g' cfg user_type Hcfg). split.
  - exists (credentials (username_of cfg user_type) (standard_password cfg)),
      (username_of cfg user_type), (standard_password cfg).
    destruct (credentials_fields (username_of cfg user_type) (standard_password cfg))
      as (Hu & Hp & Hdom).
    repeat split; assumption.
  - intros Hunknown. unfold username_of.
    destruct (String.eqb user_type "locked") eqn:E1.
    { apply String.eqb_eq in E1. exfalso. apply Hunknown. subst. cbn. tauto. }
    destruct (String.eqb user_type "problem") eqn:E2.
    { apply String.eqb_eq in E2. exfalso. apply Hunknown. subst. cbn. tauto. }
    destruct (String.eqb user_type "performance") eqn:E3.
    { apply String.eqb_eq in E3. exfalso. apply Hunknown. subst. cbn. tauto. }
    reflexivity.
Qed.

Lemma get_user_credentials_total_witness :
  get_config no_environment (Some default_config) = (Ok default_config, Some default_config) /\
  ~ In "admin" known_categories /\
  get_user_credentials no_environment "admin" (Some default_config)
  = (Ok (credentials "standard_user" "secret_sauce"), Some default_config).
Proof.
  assert (Hcfg : get_config no_environment (Some default_config)
                 = (Ok default_config, Some default_config)) by reflexivity.
  assert (Hunknown : ~ In "admin" known_categories)
    by (cbn; intros [H|[H|[H|[H|[]]]]]; discriminate).
  split; [assumption|]. split; [assumption|].
  exact (proj2 (get_user_credentials_total no_environment _ _ _ "admin" Hcfg) Hunknown).
Defined.

(** C10: with the settings available, for each of the categories
    standard, locked, problem and performance the password of the pair
    that [get_user_credentials] returns is the configured standard
    password. *)
Theorem get_user_credentials_password
    (env : Environment) (g g' : Globals) (cfg : Config) (category : string) :
  get_config env g = (Ok cfg, g') ->
  In category known_categories ->
  exists d,
    get_user_credentials env category g = (Ok d, g') /\
    d !! "password" = Some (standard_password cfg).
Proof.
  intros Hcfg _. rewrite (get_user_credentials_value env g g' cfg category Hcfg).
  eexists. split; [reflexivity|]. apply credentials_fields.
Qed.

Lemma get_user_credentials_password_witness :
  get_config no_environment (Some default_config) = (Ok default_config, Some default_config) /\
  In "locked" known_categories /\
  exists d,
    get_user_credentials no_environment "locked" (Some default_config)
    = (Ok d, Some default_config) /\
    d !! "password" = Some "secret_sauce".
Proof.
  assert (Hcfg : get_config no_environment (Some default_config)
                 = (Ok default_config, Some default_config)) by reflexivity.
  assert (Hin : In "locked" known_categories) by (cbn; tauto).
  split; [assumption|]. split; [assumption|].
  exact (get_user_credentials_password no_environment _ _ _ "locked" Hcfg Hin).
Defined.

End Credentials.

(** ** Sorting *)

Section SortingFacts.
Import PyList.
Context {A : Type}.
Variable ltb : A -> A -> bool.
Variable eqb : A -> A -> bool.

Local Abbreviation not_after := (PyList.not_after ltb).

Hypothesis ltb_asym : forall a b, ltb a b = true -> ltb b a = false.
Hypothesis eqb_ltb : forall a a' b b',
  eqb a a' = true -> eqb b b' = true -> ltb a b = ltb a' b'.

Lemma insert_sorted_Permutation (x : A) (l : list A) :
  Permutation (x :: l) (insert_sorted ltb x l).
Proof.
  induction l as [|y rest IH]; cbn; [reflexivity|].
  destruct (ltb y x); [|reflexivity].
  rewrite perm_swap. now apply perm_skip.
Qed.

Lemma sorted_Permutation (l : list A) : Permutation l (sorted ltb l).
Proof.
  induction l as [|x rest IH]; cbn; [reflexivity|].
  rewrite <- insert_sorted_Permutation. now apply perm_skip.
Qed.

Lemma insert_sorted_HdRel (a x : A) (l : list A) :
  not_after a x -> HdRel not_after a l -> HdRel not_after a (insert_sorted ltb x l).
Proof.
  intros Hax Hal. destruct l as [|y rest]; cbn; [now constructor|].
  destruct (ltb y x); constructor; [|assumption].
  now inversion Hal.
Qed.

Lemma insert_sorted_Sorted (x : A) (l : list A) :
  Sorted not_after l -> Sorted not_after (insert_sorted ltb x l).
Proof.
  induction l as [|y rest IH]; cbn; intros Hl.
  - repeat constructor.
  - inversion Hl as [|? ? Hrest Hhd]; subst.
    destruct (ltb y x) eqn:Hyx.
    + constructor; [now apply IH|].
      apply insert_sorted_HdRel; [|assumption]. now apply ltb_asym.
    + constructor; [assumption|]. now constructor.
Qed.

(** [sorted] returns a sorted list. *)
Lemma sorted_Sorted (l : list A) : Sorted not_after (sorted ltb l).
Proof.
  induction l as [|x rest IH]; cbn; [constructor|]. now apply insert_sorted_Sorted.
Qed.

(** [sorted] leaves a sorted list as it is. *)
Lemma sorted_fixpoint (l : list A) : Sorted not_after l -> sorted ltb l = l.
Proof.
  induction 1 as [|a l Hl IH Hhd]; cbn; [reflexivity|].
  rewrite IH. destruct Hhd as [|b l' Hab]; cbn; [reflexivity|].
  unfold not_after in Hab. now rewrite Hab.
Qed.

Lemma list_eqb_Forall2 (l s : list A) :
  list_eqb eqb l s = true <-> Forall2 (fun a b => eqb a b = true) l s.
Proof.
  revert s. induction l as [|x l IH]; intros [|y s]; cbn; split; intros H;
    try discriminate; try constructor; try (now inversion H).
  - now apply andb_prop in H.
  - apply IH. now apply andb_prop in H.
  - inversion H; subst. apply andb_true_intro. split; [assumption|]. now apply IH.
Qed.

Lemma list_eqb_refl (l : list A) :
  Forall (fun x => eqb x x = true) l -> list_eqb eqb l l = true.
Proof.
  induction 1 as [|x l Hx Hl IH]; cbn; [reflexivity|]. now rewrite Hx, IH.
Qed.

(** Sortedness passes to a list that is equal element by element. *)
Lemma Sorted_eqb (l s : list A) :
  Forall2 (fun a b => eqb a b = true) l s ->
  (Sorted not_after s -> Sorted not_after l) /\
  (Sorted (flip not_after) s -> Sorted (flip not_after) l).
Proof.
  induction 1 as [|a b l s Hab Hls IH]; [split; constructor|].
  split; intros Hs; inversion Hs as [|? ? Hs' Hhd]; subst;
    (constructor; [now apply IH|]);
    destruct Hls as [|a' b' l s Hab' Hls]; constructor;
    inversion Hhd; subst; unfold flip, not_after in *.
  - now rewrite (eqb_ltb a' b' a b).
  - now rewrite (eqb_ltb a b a' b').
Qed.

Lemma HdRel_app_nonempty (Q : A -> A -> Prop) (a b : A) (l m : list A) :
  HdRel Q a (b :: l) <-> HdRel Q a ((b :: l) ++ m).
Proof. cbn. split; intros H; inversion H; now constructor. Qed.

Lemma Sorted_snoc (Q : A -> A -> Prop) (l : list A) (a : A) :
  Sorted Q l -> HdRel (flip Q) a (rev l) -> Sorted Q (l ++ [a]).
Proof.
  induction 1 as [|c l Hl IH Hhd]; cbn; intros Ha; [repeat constructor|].
  destruct l as [|d l].
  - cbn in *. inversion Ha; subst. repeat constructor. assumption.
  - constructor.
    + apply IH. cbn in Ha |- *.
      destruct (rev l ++ [d])%list as [|z zs] eqn:Hz.
      { now destruct (rev l). }
      cbn in Ha. inversion Ha; subst. now constructor.
    + cbn. inversion Hhd; subst. now constructor.
Qed.

(** A sorted list reversed is sorted for the reverse order. *)
Lemma Sorted_rev (Q : A -> A -> Prop) (l : list A) :
  Sorted Q l -> Sorted (flip Q) (rev l).
Proof.
  induction 1 as [|a l Hl IH Hhd]; cbn; [constructor|].
  apply Sorted_snoc; [assumption|].
  rewrite rev_involutive. destruct Hhd; now constructor.
Qed.

(** [l == sorted(l)] holds exactly when [l] is, element by element, equal
    to a sort of itself. *)
Lemma equals_sorted (l : list A) :
  Forall (fun x => eqb x x = true) l ->
  list_eqb eqb l (sorted ltb l) = true <->
  exists s, Spec.is_sort_of not_after l s /\ Forall2 (fun a b => eqb a b = true) l s.
Proof.
  intros Hrefl. split.
  - intros H. exists (sorted ltb l). split; [split|].
    + apply sorted_Permutation.
    + apply sorted_Sorted.
    + now apply list_eqb_Forall2.
  - intros (s & [_ Hsorted] & Heq).
    apply (Sorted_eqb _ _ Heq) in Hsorted.
    rewrite (sorted_fixpoint _ Hsorted). now apply list_eqb_refl.
Qed.

(** The same for [sorted(l, reverse=True)] and the reverse order. *)
Lemma equals_sorted_reverse (l : list A) :
  Forall (fun x => eqb x x = true) l ->
  list_eqb eqb l (sorted_reverse ltb l) = true <->
  exists s, Spec.is_sort_of (flip not_after) l s
            /\ Forall2 (fun a b => eqb a b = true) l s.
Proof.
  intros Hrefl. unfold sorted_reverse. split.
  - intros H. exists (rev (sorted ltb (rev l))). split; [split|].
    + rewrite <- Permutation_rev, <- sorted_Permutation. apply Permutation_rev.
    + apply Sorted_rev, sorted_Sorted.
    + now apply list_eqb_Forall2.
  - intros (s & [_ Hsorted] & Heq).
    apply (Sorted_eqb _ _ Heq) in Hsorted.
    apply Sorted_rev in Hsorted.
    rewrite (sorted_fixpoint (rev l)), rev_involutive; [now apply list_eqb_refl|].
    exact Hsorted.
Qed.

End SortingFacts.

(** ** The orders of names and of prices *)

Section Orders.
Import PyStr PyNum PyList Spec.

Lemma code_inj (x y : ascii) : code x = code y -> x = y.
Proof.
  unfold code. intros H%Nat2Z.inj.
  now rewrite <- (ascii_nat_embedding x), <- (ascii_nat_embedding y), H.
Qed.

Lemma str_ltb_irrefl (a : string) : str_ltb a a = false.
Proof.
  induction a as [|x a IH]; cbn; [reflexivity|]. now rewrite Z.ltb_irrefl.
Qed.

Lemma str_ltb_asym (a b : string) : str_ltb a b = true -> str_ltb b a = false.
Proof.
  revert b. induction a as [|x a IH]; intros [|y b]; cbn; try easy.
  destruct (code x <? code y) eqn:Hxy, (code y <? code x) eqn:Hyx; try easy.
  - lia.
  - apply IH.
Qed.

Lemma str_ltb_total (a b : string) : str_ltb b a = false -> a = b \/ str_ltb a b = true.
Proof.
  revert b. induction a as [|x a IH]; intros [|y b]; cbn; auto; try discriminate.
  destruct (code y <? code x) eqn:Hyx; [discriminate|].
  destruct (code x <? code y) eqn:Hxy; [auto|].
  intros [->|H]%IH; [left|now right].
  f_equal. apply code_inj. lia.
Qed.

(** On names, "not after" is the lexicographic order. *)
Lemma not_after_lex_le (a b : string) : not_after str_ltb a b <-> lex_le a b.
Proof.
  unfold not_after, lex_le. split.
  - apply str_ltb_total.
  - intros [->|H]; [apply str_ltb_irrefl | now apply str_ltb_asym].
Qed.

Lemma string_eqb_ltb (a a' b b' : string) :
  String.eqb a a' = true -> String.eqb b b' = true -> str_ltb a b = str_ltb a' b'.
Proof. now intros ->%String.eqb_eq ->%String.eqb_eq. Qed.

Lemma Forall2_string_eqb (l s : list string) :
  Forall2 (fun a b => String.eqb a b = true) l s <-> l = s.
Proof.
  split.
  - induction 1 as [|a b l s Hab _ IH]; [reflexivity|].
    apply String.eqb_eq in Hab. now subst.
  - intros <-. induction l; constructor; [apply String.eqb_refl | assumption].
Qed.

(** Sortedness depends on the order between the elements of the list
    only. *)
Lemma Sorted_iff {A : Type} (Q Q' : A -> A -> Prop) (l : list A) :
  (forall a b, In a l -> In b l -> (Q a b <-> Q' a b)) ->
  Sorted Q l <-> Sorted Q' l.
Proof.
  induction l as [|x l IH]; intros HQ; [split; constructor|].
  assert (Hl : Sorted Q l <-> Sorted Q' l).
  { apply IH. intros a b Ha Hb. apply HQ; now right. }
  split; intros H; inversion H as [|? ? Hs Hhd]; subst;
    (constructor; [now apply Hl|]);
    destruct Hhd as [|y l' Hxy]; constructor;
    apply (HQ x y); cbn; auto.
Qed.

(** The comparison of numbers, read from right to left, is the opposite
    comparison. *)
Lemma SFcompare_antisym (a b : float) :
  SFcompare b a = CompOpp <$> SFcompare a b.
Proof.
  destruct a as [sa|sa| |sa ma ea], b as [sb|sb| |sb mb eb]; cbn;
    try reflexivity; try (now destruct sa); try (now destruct sb);
    try (now destruct sa, sb).
  pose proof (Pos.compare_cont_antisym ma mb Eq) as Hm. cbn in Hm.
  destruct sa, sb; try reflexivity; f_equal;
    rewrite (Z.compare_antisym ea eb);
    destruct (ea ?= eb); cbn; try reflexivity;
    rewrite <- Hm; now rewrite ?CompOpp_involutive.
Qed.

Lemma fltb_asym (a b : float) : fltb a b = true -> fltb b a = false.
Proof.
  unfold fltb, SFltb. rewrite (SFcompare_antisym a b).
  now destruct (SFcompare a b) as [[]|].
Qed.

Lemma SFcompare_not_nan (a b : float) :
  is_nan a = false -> is_nan b = false -> exists c, SFcompare a b = Some c.
Proof.
  destruct a, b; cbn; try discriminate; intros _ _; eauto.
Qed.

(** On numbers that are no not-a-number, "not after" is [<=]. *)
Lemma not_after_num_le (a b : float) :
  is_nan a = false -> is_nan b = false ->
  not_after fltb a b <-> num_le a b.
Proof.
  intros Ha Hb. unfold not_after, num_le, fltb, SFltb, SFleb.
  rewrite (SFcompare_antisym a b).
  destruct (SFcompare_not_nan a b Ha Hb) as [c ->]. now destruct c.
Qed.

Lemma feqb_refl (a : float) : is_nan a = false -> feqb a a = true.
Proof.
  unfold feqb, SFeqb.
  destruct a as [s|s| |s m e]; cbn; try discriminate; intros _;
    try reflexivity; try (now destruct s).
  now destruct s; rewrite Z.compare_refl, Pos.compare_cont_refl.
Qed.

(** Equal numbers are the same value, or are both zero. *)
Lemma feqb_cases (a a' : float) :
  feqb a a' = true -> a = a' \/ exists s s', a = S754_zero s /\ a' = S754_zero s'.
Proof.
  unfold feqb, SFeqb.
  destruct a as [s|s| |s m e], a' as [s'|s'| |s' m' e']; cbn; try discriminate;
    try (destruct s; discriminate); try (destruct s'; discriminate).
  - intros _. right. eauto.
  - destruct s, s'; try discriminate; auto.
  - destruct s, s'; try discriminate;
      destruct (e ?= e') eqn:He; try discriminate;
      apply Z.compare_eq in He; subst;
      destruct (Pos.compare_cont Eq m m') eqn:Hm; try discriminate;
      apply Pos.compare_eq in Hm; subst; auto.
Qed.

Lemma feqb_fltb (a a' b b' : float) :
  feqb a a' = true -> feqb b b' = true -> fltb a b = fltb a' b'.
Proof.
  unfold fltb, SFltb.
  intros [->|(s & s' & -> & ->)]%feqb_cases [->|(t & t' & -> & ->)]%feqb_cases;
    reflexivity.
Qed.

Lemma comprehension_Forall2 {A B : Type} (f : A -> outcome B) (xs : list A) (ys : list B) :
  comprehension f xs = Ok ys <-> Forall2 (fun x y => f x = Ok y) xs ys.
Proof.
  revert ys. induction xs as [|x xs IH]; intros ys; cbn.
  - split; [intros [= <-]; constructor | now inversion 1].
  - split.
    + destruct (f x) as [y|e] eqn:Hx; cbn; [|discriminate].
      destruct (comprehension f xs) as [ys'|e] eqn:Hxs; cbn; [|discriminate].
      intros [= <-]. constructor; [assumption|]. now apply IH.
    + inversion 1 as [|? y ? ys' Hx Hxs]; subst. rewrite Hx. cbn.
      apply IH in Hxs. now rewrite Hxs.
Qed.

End Orders.

(** ** Checks of the displayed order *)

Section SortedChecks.
Import PyStr PyNum PyList Spec BasePage Examples.

Lemma is_sort_of_iff {A : Type} (Q Q' : A -> A -> Prop) (l s : list A) :
  (forall a b, In a l -> In b l -> (Q a b <-> Q' a b)) ->
  is_sort_of Q l s <-> is_sort_of Q' l s.
Proof.
  intros HQ. unfold is_sort_of.
  assert (HQs : Permutation l s -> forall a b, In a s -> In b s -> (Q a b <-> Q' a b)).
  { intros Hperm a b Ha Hb.
    apply HQ; apply (Permutation_in _ (Permutation_sym Hperm)); assumption. }
  split; intros [Hperm Hs]; (split; [assumption|]).
  - now apply (Sorted_iff Q Q' s (HQs Hperm)).
  - now apply (Sorted_iff Q Q' s (HQs Hperm)).
Qed.

Lemma names_check (names : list string) (ascending : bool) :
  list_eqb String.eqb names
    (if ascending then sorted str_ltb names else sorted_reverse str_ltb names) = true
  <-> exists s, is_sort_of (name_order ascending) names s /\ names = s.
Proof.
  assert (Hrefl : Forall (fun x => String.eqb x x = true) names).
  { apply Forall_forall. intros x _. apply String.eqb_refl. }
  destruct ascending; cbn [name_order].
  - rewrite (equals_sorted str_ltb String.eqb str_ltb_asym string_eqb_ltb names Hrefl).
    split; intros (s & Hs & Heq); exists s.
    + split; [|now apply Forall2_string_eqb].
      apply (is_sort_of_iff (not_after str_ltb) lex_le); [|assumption].
      intros a b _ _. apply not_after_lex_le.
    + split; [|now apply Forall2_string_eqb].
      apply (is_sort_of_iff (not_after str_ltb) lex_le); [|assumption].
      intros a b _ _. apply not_after_lex_le.
  - rewrite (equals_sorted_reverse str_ltb String.eqb str_ltb_asym string_eqb_ltb
               names Hrefl).
    split; intros (s & Hs & Heq); exists s.
    + split; [|now apply Forall2_string_eqb].
      apply (is_sort_of_iff (flip (not_after str_ltb)) (fun a b => lex_le b a));
        [|assumption].
      intros a b _ _. apply not_after_lex_le.
    + split; [|now apply Forall2_string_eqb].
      apply (is_sort_of_iff (flip (not_after str_ltb)) (fun a b => lex_le b a));
        [|assumption].
      intros a b _ _. apply not_after_lex_le.
Qed.

Lemma prices_check (values : list float) (ascending : bool) :
  Forall (fun v => is_nan v = false) values ->
  list_eqb feqb values
    (if ascending then sorted fltb values else sorted_reverse fltb values) = true
  <-> exists s, is_sort_of (price_order ascending) values s /\ Forall2 num_eq values s.
Proof.
  intros Hnan.
  assert (Hin : forall a, In a values -> is_nan a = false).
  { now apply List.Forall_forall. }
  assert (Hrefl : Forall (fun x => feqb x x = true) values).
  { apply List.Forall_forall. intros x Hx. now apply feqb_refl, Hin. }
  destruct ascending; cbn [price_order].
  - rewrite (equals_sorted fltb feqb fltb_asym feqb_fltb values Hrefl).
    split; intros (s & Hs & Heq); exists s; (split; [|exact Heq]).
    + apply (is_sort_of_iff (not_after fltb) num_le); [|assumption].
      intros a b Ha Hb. apply not_after_num_le; auto.
    + apply (is_sort_of_iff (not_after fltb) num_le); [|assumption].
      intros a b Ha Hb. apply not_after_num_le; auto.
  - rewrite (equals_sorted_reverse fltb feqb fltb_asym feqb_fltb values Hrefl).
    split; intros (s & Hs & Heq); exists s; (split; [|exact Heq]).
    + apply (is_sort_of_iff (flip (not_after fltb)) (fun a b => num_le b a));
        [|assumption].
      intros a b Ha Hb. apply not_after_num_le; auto.
    + apply (is_sort_of_iff (flip (not_after fltb)) (fun a b => num_le b a));
        [|assumption].
      intros a b Ha Hb. apply not_after_num_le; auto.
Qed.

(** C6: for every list of displayed product names,
    [verify_products_sorted_alphabetically] returns [True] exactly when
    the list is its own lexicographic sort (reverse sort when [ascending]
    is [False]); for every list of displayed prices whose values after
    stripping the [$] are numbers, [verify_products_sorted_by_price]
    returns [True] exactly when the values are equal to their numeric sort
    (reverse sort when [ascending] is [False]). *)
Theorem verify_products_sorted_spec (self : BasePage) (ascending : bool) :
  (InventoryPage.verify_products_sorted_alphabetically self ascending = true <->
   exists s,
     is_sort_of (name_order ascending) (InventoryPage.get_product_names self) s /\
     InventoryPage.get_product_names self = s) /\
  (forall values,
     Forall2 (fun price v => InventoryPage.price_value price = Ok v)
       (InventoryPage.get_product_prices self) values ->
     Forall (fun v => is_nan v = false) values ->
     exists b,
       InventoryPage.verify_products_sorted_by_price self ascending = Ok b /\
       (b = true <->
        exists s, is_sort_of (price_order ascending) values s /\ Forall2 num_eq values s)).
Proof.
  split.
  - unfold InventoryPage.verify_products_sorted_alphabetically. apply names_check.
  - intros values Hvalues Hnan.
    unfold InventoryPage.verify_products_sorted_by_price.
    apply comprehension_Forall2 in Hvalues. rewrite Hvalues. cbn.
    eexists. split; [reflexivity|]. now apply prices_check.
Qed.

End SortedChecks.

Section SortedChecksWitness.
Import PyStr PyNum PyList Spec BasePage Examples.

Lemma verify_products_sorted_spec_witness :
  Forall2 (fun price v => InventoryPage.price_value price = Ok v)
    (InventoryPage.get_product_prices (on (page_listing ascending_prices [])))
    ascending_values /\
  Forall (fun v => is_nan v = false) ascending_values /\
  exists b,
    InventoryPage.verify_products_sorted_by_price
      (on (page_listing ascending_prices [])) true = Ok b /\
    (b = true <->
     exists s, is_sort_of (price_order true) ascending_values s
               /\ Forall2 num_eq ascending_values s).
Proof.
  assert (Hvalues : Forall2 (fun price v => InventoryPage.price_value price = Ok v)
            (InventoryPage.get_product_prices (on (page_listing ascending_prices [])))
            ascending_values)
    by (repeat constructor; reflexivity).
  assert (Hnan : Forall (fun v => is_nan v = false) ascending_values)
    by (repeat constructor; reflexivity).
  split; [assumption|]. split; [assumption|].
  exact (proj2 (verify_products_sorted_spec (on (page_listing ascending_prices [])) true)
           ascending_values Hvalues Hnan).
Defined.

End SortedChecksWitness.

(** ** The total price of the cart *)

Section TotalPrice.
Import PyStr PyNum PyList Spec BasePage Examples.

(** Past the end of the quantities nothing is added, and no price is
    read. *)
Lemma total_from_past_end (quantities : list Z) (prices : list string)
    (i : nat) (total : float) :
  (length quantities <= i)%nat ->
  CartPage.total_from quantities i prices total = Ok total.
Proof.
  revert i. induction prices as [|price rest IH]; intros i Hi;
    cbn [CartPage.total_from]; [reflexivity|].
  destruct (i <? length quantities)%nat eqn:Hlt.
  - apply Nat.ltb_lt in Hlt. lia.
  - apply IH. lia.
Qed.

Lemma total_from_spec (quantities : list Z) (prices : list string) :
  forall (i : nat) (total : float) (values factors : list float),
  let n := Nat.min (length prices) (length (drop i quantities)) in
  Forall2 (fun price v => py_float (replace price "$" EmptyString) = Ok v) (take n prices) values ->
  Forall2 (fun q f => float_of_int q = Ok f) (take n (drop i quantities)) factors ->
  CartPage.total_from quantities i prices total
  = Ok (fold_left (fun total '(v, f) => fadd total (fmul v f)) (combine values factors)
          total).
Proof.
  induction prices as [|price rest IH]; intros i total values factors n Hvalues Hfactors.
  - cbn in *. inversion Hvalues; subst. reflexivity.
  - cbn [CartPage.total_from].
    destruct (i <? length quantities)%nat eqn:Hlt.
    + apply Nat.ltb_lt in Hlt.
      destruct (lookup_lt_is_Some_2 quantities i Hlt) as [q Hq].
      subst n. rewrite (drop_S _ _ _ Hq) in Hvalues, Hfactors.
      cbn [length Nat.min firstn] in Hvalues, Hfactors.
      inversion Hvalues as [|? v ? vs Hv Hvs]; subst.
      inversion Hfactors as [|? f ? fs Hf Hfs]; subst.
      rewrite Hv. cbn. unfold getitem. rewrite Hq. cbn.
      unfold fmul_int. rewrite Hf. cbn.
      now apply IH.
    + apply Nat.ltb_ge in Hlt.
      assert (Hn : n = 0%nat).
      { subst n. rewrite length_drop. lia. }
      rewrite Hn in Hvalues, Hfactors. cbn [firstn] in Hvalues, Hfactors.
      inversion Hvalues; subst. cbn [combine fold_left].
      apply total_from_past_end. lia.
Qed.

(** C3: for the prices and the quantities read from the cart page,
    [calculate_total_price] returns the sum, over the first
    [min(len(prices), len(quantities))] positions, of the value of the
    price without its [$] times the quantity at the same position, so
    that the longer list is cut to the shorter one without a failure; for
    the prices "$29.99" and "$9.99" with the quantities 1 and 2 it returns
    49.97. *)
Theorem calculate_total_price_spec
    (self : BasePage) (quantities : list Z) (values factors : list float) :
  CartPage.calculate_total_price (on (page_listing ["$29.99"; "$9.99"] ["1"; "2"]))
  = py_float "49.97" /\
  (CartPage.get_cart_item_quantities self = Ok quantities ->
   Forall2 (fun price v => py_float (replace price "$" EmptyString) = Ok v)
     (take (Nat.min (length (CartPage.get_cart_item_prices self)) (length quantities))
        (CartPage.get_cart_item_prices self))
     values ->
   Forall2 (fun q f => float_of_int q = Ok f)
     (take (Nat.min (length (CartPage.get_cart_item_prices self)) (length quantities))
        quantities)
     factors ->
   CartPage.calculate_total_price self = Ok (total_of values factors)).
Proof.
  split; [vm_compute; reflexivity|].
  intros Hq Hvalues Hfactors. unfold CartPage.calculate_total_price. rewrite Hq. cbn.
  now apply (total_from_spec quantities (CartPage.get_cart_item_prices self) 0).
Qed.

Lemma calculate_total_price_spec_witness :
  CartPage.get_cart_item_quantities (on (page_listing cart_prices cart_quantities))
  = Ok [1; 2] /\
  Forall2 (fun price v => py_float (replace price "$" EmptyString) = Ok v)
    (take (Nat.min (length (CartPage.get_cart_item_prices
                              (on (page_listing cart_prices cart_quantities))))
             (length [1; 2]))
       (CartPage.get_cart_item_prices (on (page_listing cart_prices cart_quantities))))
    [of_decimal false 2999 (-2); of_decimal false 999 (-2)] /\
  Forall2 (fun q f => float_of_int q = Ok f)
    (take (Nat.min (length (CartPage.get_cart_item_prices
                              (on (page_listing cart_prices cart_quantities))))
             (length [1; 2]))
       [1; 2])
    [of_decimal false 1 0; of_decimal false 2 0] /\
  CartPage.calculate_total_price (on (page_listing cart_prices cart_quantities))
  = Ok (total_of [of_decimal false 2999 (-2); of_decimal false 999 (-2)]
          [of_decimal false 1 0; of_decimal false 2 0]).
Proof.
  assert (Hq : CartPage.get_cart_item_quantities
                 (on (page_listing cart_prices cart_quantities)) = Ok [1; 2])
    by reflexivity.
  assert (Hvalues : Forall2 (fun price v => py_float (replace price "$" EmptyString) = Ok v)
    (take (Nat.min (length (CartPage.get_cart_item_prices
                              (on (page_listing cart_prices cart_quantities))))
             (length [1; 2]))
       (CartPage.get_cart_item_prices (on (page_listing cart_prices cart_quantities))))
    [of_decimal false 2999 (-2); of_decimal false 999 (-2)])
    by (repeat constructor; reflexivity).
  assert (Hfactors : Forall2 (fun q f => float_of_int q = Ok f)
    (take (Nat.min (length (CartPage.get_cart_item_prices
                              (on (page_listing cart_prices cart_quantities))))
             (length [1; 2]))
       [1; 2])
    [of_decimal false 1 0; of_decimal false 2 0])
    by (repeat constructor; reflexivity).
  repeat (split; [assumption|]).
  exact (proj2 (calculate_total_price_spec (on (page_listing cart_prices cart_quantities))
                  [1; 2] _ _) Hq Hvalues Hfactors).
Defined.

End TotalPrice.

(** * Further properties of the page objects *)

(** ** The derived identifiers *)

Section IdentifierFacts.
Import PyStr Spec BasePage.

(** What the two rules do to one character before anything is removed. *)
Local Abbreviation hyphenate := (fun c : ascii => if Ascii.eqb c space then hyphen else c).
Local Abbreviation is_punctuation :=
  (fun c : ascii => Ascii.eqb c full_stop || Ascii.eqb c left_parenthesis
                    || Ascii.eqb c right_parenthesis).

Ltac by_cases_on_char c :=
  destruct c as [[] [] [] [] [] [] [] []]; vm_compute; reflexivity.

Lemma all_chars_ext (p q : ascii -> bool) (s : string) :
  (forall c, p c = q c) -> all_chars p s = all_chars q s.
Proof.
  intros Hpq. induction s as [|c rest IH]; [reflexivity|]. cbn. now rewrite Hpq, IH.
Qed.

Lemma all_chars_true (p : ascii -> bool) (s : string) :
  (forall c, p c = true) -> all_chars p s = true.
Proof.
  intros Hp. induction s as [|c rest IH]; [reflexivity|]. cbn. now rewrite Hp, IH.
Qed.

Lemma all_chars_and (p q : ascii -> bool) (s : string) :
  all_chars (fun c => p c && q c) s = all_chars p s && all_chars q s.
Proof.
  induction s as [|c rest IH]; [reflexivity|]. cbn. rewrite IH.
  destruct (p c), (q c), (all_chars p rest), (all_chars q rest); reflexivity.
Qed.

(** The characters of a string from which some were removed. *)
Lemma all_chars_remove (p q : ascii -> bool) (s : string) :
  all_chars q (remove_chars p s) = all_chars (fun c => p c || q c) s.
Proof.
  induction s as [|c rest IH]; [reflexivity|]. cbn.
  destruct (p c); cbn; now rewrite IH.
Qed.

Lemma map_chars_compose (f g : ascii -> ascii) (s : string) :
  map_chars f (map_chars g s) = map_chars (fun c => f (g c)) s.
Proof.
  induction s as [|c rest IH]; [reflexivity|]. cbn. now rewrite IH.
Qed.

Lemma map_chars_fixed (f : ascii -> ascii) (s : string) :
  all_chars (fun c => Ascii.eqb (f c) c) s = true -> map_chars f s = s.
Proof.
  induction s as [|c rest IH]; [reflexivity|]. cbn.
  intros [Hc Hrest]%andb_prop. apply Ascii.eqb_eq in Hc. now rewrite Hc, IH.
Qed.

(** [c in s] for a string of the one character [c]. *)
Lemma contains_char (c : ascii) (s : string) :
  contains (String c EmptyString) s = negb (lacks c s).
Proof.
  unfold lacks. induction s as [|x rest IH]; [reflexivity|].
  cbn [contains all_chars]. rewrite prefix_single, IH.
  now destruct (Ascii.eqb c x).
Qed.

Lemma identifier_chars (q : ascii -> bool) (name : string) :
  all_chars q (identifier name)
  = all_chars
      (fun c => Ascii.eqb apostrophe (hyphenate (lower_char c))
                || q (hyphenate (lower_char c)))
      name.
Proof.
  unfold identifier, remove_apostrophes, spaces_to_hyphens.
  now rewrite lower_map_chars, map_chars_compose, all_chars_remove, all_chars_map.
Qed.

Lemma cart_identifier_chars (q : ascii -> bool) (name : string) :
  all_chars q (strip_punctuation (spaces_to_hyphens (lower name)))
  = all_chars
      (fun c => is_punctuation (hyphenate (lower_char c))
                || q (hyphenate (lower_char c)))
      name.
Proof.
  unfold strip_punctuation, spaces_to_hyphens.
  now rewrite lower_map_chars, map_chars_compose, all_chars_remove, all_chars_map.
Qed.

(** An identifier that the inventory rule leaves as it is. *)
Lemma identifier_fixed (s : string) :
  all_chars
    (fun c => Ascii.eqb (hyphenate (lower_char c)) c && negb (Ascii.eqb apostrophe c))
    s = true ->
  identifier s = s.
Proof.
  rewrite all_chars_and. intros [Hmap Hapo]%andb_prop.
  unfold identifier, remove_apostrophes, spaces_to_hyphens.
  rewrite lower_map_chars, map_chars_compose, (map_chars_fixed _ s Hmap).
  now apply remove_chars_none.
Qed.

Lemma cart_identifier_fixed (s : string) :
  all_chars
    (fun c => Ascii.eqb (hyphenate (lower_char c)) c && negb (is_punctuation c))
    s = true ->
  strip_punctuation (spaces_to_hyphens (lower s)) = s.
Proof.
  rewrite all_chars_and. intros [Hmap Hpun]%andb_prop.
  unfold strip_punctuation, spaces_to_hyphens.
  rewrite lower_map_chars, map_chars_compose, (map_chars_fixed _ s Hmap).
  now apply remove_chars_none.
Qed.

(** X1: the identifier the inventory page derives from a name holds no
    space and no apostrophe, is in lower case, and is its own identifier:
    deriving twice changes nothing. *)
Theorem test_id_normal_form (product_name : string) :
  contains " " (InventoryPage.test_id product_name) = false /\
  contains "'" (InventoryPage.test_id product_name) = false /\
  lower (InventoryPage.test_id product_name) = InventoryPage.test_id product_name /\
  InventoryPage.test_id (InventoryPage.test_id product_name)
  = InventoryPage.test_id product_name.
Proof.
  rewrite !test_id_identifier.
  change " " with (String space EmptyString).
  change "'" with (String apostrophe EmptyString).
  rewrite !contains_char. unfold lacks.
  repeat split.
  - apply negb_false_iff. rewrite identifier_chars.
    apply all_chars_true. intros c. by_cases_on_char c.
  - apply negb_false_iff. rewrite identifier_chars.
    apply all_chars_true. intros c. by_cases_on_char c.
  - rewrite lower_map_chars. apply map_chars_fixed. rewrite identifier_chars.
    apply all_chars_true. intros c. by_cases_on_char c.
  - apply identifier_fixed. rewrite identifier_chars.
    apply all_chars_true. intros c. by_cases_on_char c.
Qed.

(** X2: the identifier the cart page derives from a name holds no space,
    no full stop and no parenthesis, is in lower case, and is its own
    identifier. *)
Theorem data_test_name_normal_form (item_name : string) :
  contains " " (CartPage.data_test_name item_name) = false /\
  contains "." (CartPage.data_test_name item_name) = false /\
  contains "(" (CartPage.data_test_name item_name) = false /\
  contains ")" (CartPage.data_test_name item_name) = false /\
  lower (CartPage.data_test_name item_name) = CartPage.data_test_name item_name /\
  CartPage.data_test_name (CartPage.data_test_name item_name)
  = CartPage.data_test_name item_name.
Proof.
  rewrite !data_test_name_rule.
  change " " with (String space EmptyString).
  change "." with (String full_stop EmptyString).
  change "(" with (String left_parenthesis EmptyString).
  change ")" with (String right_parenthesis EmptyString).
  rewrite !contains_char. unfold lacks.
  repeat split.
  - apply negb_false_iff. rewrite cart_identifier_chars.
    apply all_chars_true. intros c. by_cases_on_char c.
  - apply negb_false_iff. rewrite cart_identifier_chars.
    apply all_chars_true. intros c. by_cases_on_char c.
  - apply negb_false_iff. rewrite cart_identifier_chars.
    apply all_chars_true. intros c. by_cases_on_char c.
  - apply negb_false_iff. rewrite cart_identifier_chars.
    apply all_chars_true. intros c. by_cases_on_char c.
  - rewrite lower_map_chars. apply map_chars_fixed. rewrite cart_identifier_chars.
    apply all_chars_true. intros c. by_cases_on_char c.
  - apply cart_identifier_fixed. rewrite cart_identifier_chars.
    apply all_chars_true. intros c. by_cases_on_char c.
Qed.

Lemma plain_name_chars (s : string) :
  plain_name s
  = all_chars (fun c => negb (Ascii.eqb apostrophe c) && negb (is_punctuation c)) s.
Proof.
  unfold plain_name, lacks. rewrite <- !all_chars_and. apply all_chars_ext.
  intros c. by_cases_on_char c.
Qed.

(** X4: the cart page and the inventory page derive the same identifier
    from a name exactly when the name holds no apostrophe, no full stop
    and no parenthesis. *)
Theorem identifiers_agree_iff (name : string) :
  CartPage.data_test_name name = InventoryPage.test_id name <-> plain_name name = true.
Proof.
  rewrite data_test_name_rule, test_id_identifier, plain_name_chars, all_chars_and.
  split.
  - intros Heq. apply andb_true_intro. split.
    + (* the cart page keeps apostrophes, the inventory page has none *)
      assert (H : all_chars (fun c => negb (Ascii.eqb apostrophe c)) (identifier name) = true).
      { rewrite identifier_chars. apply all_chars_true. intros c. by_cases_on_char c. }
      rewrite <- Heq, cart_identifier_chars in H.
      rewrite <- H. apply all_chars_ext. intros c. by_cases_on_char c.
    + assert (H : all_chars (fun c => negb (is_punctuation c))
                    (strip_punctuation (spaces_to_hyphens (lower name))) = true).
      { rewrite cart_identifier_chars. apply all_chars_true. intros c. by_cases_on_char c. }
      rewrite Heq, identifier_chars in H.
      rewrite <- H. apply all_chars_ext. intros c. by_cases_on_char c.
  - intros [Hapo Hpun]%andb_prop.
    unfold identifier, strip_punctuation, remove_apostrophes.
    rewrite !remove_chars_none; [reflexivity| |].
    + unfold spaces_to_hyphens. rewrite lower_map_chars, map_chars_compose, all_chars_map.
      revert Hapo. apply all_chars_impl. intros c.
      destruct c as [[] [] [] [] [] [] [] []]; vm_compute; congruence.
    + unfold spaces_to_hyphens. rewrite lower_map_chars, map_chars_compose, all_chars_map.
      revert Hpun. apply all_chars_impl. intros c.
      destruct c as [[] [] [] [] [] [] [] []]; vm_compute; congruence.
Qed.

Lemma identifiers_agree_iff_witness :
  plain_name "Sauce Labs Backpack" = true /\
  CartPage.data_test_name "Sauce Labs Backpack"
  = InventoryPage.test_id "Sauce Labs Backpack".
Proof.
  assert (H : plain_name "Sauce Labs Backpack" = true) by reflexivity.
  split; [assumption|].
  exact (proj2 (identifiers_agree_iff "Sauce Labs Backpack") H).
Defined.

End IdentifierFacts.

(** ** Digits and integer literals *)

Section DigitFacts.
Import PyStr PyNum Spec.

Lemma all_chars_string_of_list (q : ascii -> bool) (l : list ascii) :
  all_chars q (string_of_list_ascii l) = forallb q l.
Proof.
  induction l as [|c l IH]; [reflexivity|]. cbn. now rewrite IH.
Qed.

Lemma all_chars_list_of_string (q : ascii -> bool) (s : string) :
  forallb q (list_ascii_of_string s) = all_chars q s.
Proof.
  induction s as [|c s IH]; [reflexivity|]. cbn. now rewrite IH.
Qed.

Lemma all_chars_reverse (q : ascii -> bool) (s : string) :
  all_chars q (reverse s) = all_chars q s.
Proof.
  unfold reverse. rewrite all_chars_string_of_list, <- all_chars_list_of_string.
  induction (list_ascii_of_string s) as [|c l IH]; [reflexivity|].
  cbn. rewrite forallb_app, IH. cbn. rewrite andb_true_r. apply andb_comm.
Qed.

Lemma reverse_involutive (s : string) : reverse (reverse s) = s.
Proof.
  unfold reverse.
  now rewrite list_ascii_of_string_of_list_ascii, rev_involutive,
    string_of_list_ascii_of_string.
Qed.

Lemma lstrip_nothing (p : ascii -> bool) (s : string) :
  all_chars (fun c => negb (p c)) s = true -> lstrip p s = s.
Proof.
  destruct s as [|c rest]; [reflexivity|]. cbn.
  intros [Hc _]%andb_prop. apply negb_true_iff in Hc. now rewrite Hc.
Qed.

(** Stripping leaves a string without the characters to strip as it is. *)
Lemma strip_nothing (p : ascii -> bool) (s : string) :
  all_chars (fun c => negb (p c)) s = true -> strip p s = s.
Proof.
  intros H. unfold strip, rstrip. rewrite (lstrip_nothing p s H).
  rewrite lstrip_nothing; [apply reverse_involutive|].
  now rewrite all_chars_reverse.
Qed.

Lemma digit_value_range (c : ascii) (d : Z) : digit_value c = Some d -> 0 <= d <= 9.
Proof.
  unfold digit_value.
  destruct ((48 <=? code c) && (code c <=? 57)) eqn:H; [|discriminate].
  intros [= <-]. apply andb_prop in H. lia.
Qed.

(** The value of a digit part is not negative. *)
Lemma digitpart_nonneg (s : string) :
  forall prev acc n, 0 <= acc -> digitpart prev acc s = Some n -> 0 <= n.
Proof.
  induction s as [|c rest IH]; intros prev acc n Hacc; cbn.
  - destruct prev; [now intros [= <-] | discriminate].
  - destruct (digit_value c) as [d|] eqn:Hd.
    + apply digit_value_range in Hd. apply IH. lia.
    + destruct (Ascii.eqb c underscore && prev); [now apply IH | discriminate].
Qed.

(** Decimal digits always make a digit part. *)
Lemma digitpart_decimal (s : string) :
  all_chars is_ascii_digit s = true ->
  forall prev acc, nonempty s || prev = true -> exists n, digitpart prev acc s = Some n.
Proof.
  induction s as [|c rest IH]; cbn; intros Hall prev acc Hne.
  - subst. eauto.
  - apply andb_prop in Hall as [Hc Hrest]. unfold is_ascii_digit in Hc.
    destruct (digit_value c); [|discriminate].
    apply IH; [assumption|]. apply orb_true_r.
Qed.

(** Among the digits of [str.isdigit], only decimal digits make a digit
    part. *)
Lemma digitpart_of_digits (s : string) :
  all_chars isdigit_char s = true ->
  forall prev acc n, digitpart prev acc s = Some n -> all_chars is_ascii_digit s = true.
Proof.
  induction s as [|c rest IH]; cbn; [reflexivity|].
  intros [Hc Hrest]%andb_prop prev acc n. unfold is_ascii_digit.
  destruct (digit_value c) as [d|] eqn:Hd.
  - now apply IH.
  - assert (Hu : Ascii.eqb c underscore = false).
    { clear -Hc. destruct c as [[] [] [] [] [] [] [] []]; vm_compute in *; congruence. }
    rewrite Hu. discriminate.
Qed.

Lemma isdigit_no_space (c : ascii) : isdigit_char c = true -> negb (number_space c) = true.
Proof. destruct c as [[] [] [] [] [] [] [] []]; vm_compute; congruence. Qed.

Lemma isdigit_no_sign (c : ascii) :
  isdigit_char c = true -> (code c =? 45) = false /\ (code c =? 43) = false.
Proof. destruct c as [[] [] [] [] [] [] [] []]; vm_compute; split; congruence. Qed.

(** What [int()] makes of a text that [str.isdigit] accepts. *)
Lemma py_int_of_digits (s : string) :
  isdigit s = true ->
  py_int s = match digitpart false 0 s with
             | Some n => Ok n
             | None => Raise ValueError
             end.
Proof.
  unfold isdigit. intros [Hne Hall]%andb_prop. unfold py_int.
  rewrite strip_nothing.
  - destruct s as [|c rest]; [discriminate|]. cbn in Hall.
    apply andb_prop in Hall as [Hc _]. cbn [take_sign].
    destruct (isdigit_no_sign c Hc) as [-> ->]. reflexivity.
  - revert Hall. apply all_chars_impl. intros c. apply isdigit_no_space.
Qed.

(** A text of digits converts exactly when its digits are decimal, and
    then to a number that is not negative. *)
Lemma py_int_of_digits_cases (s : string) :
  isdigit s = true ->
  (digits_without_value s = false /\ exists n, py_int s = Ok n /\ 0 <= n) \/
  (digits_without_value s = true /\ py_int s = Raise ValueError).
Proof.
  intros Hd. rewrite (py_int_of_digits s Hd). unfold digits_without_value. rewrite Hd.
  pose proof Hd as [Hne Hall]%andb_prop.
  destruct (digitpart false 0 s) as [n|] eqn:Hn.
  - left. rewrite (digitpart_of_digits s Hall _ _ _ Hn). split; [reflexivity|].
    exists n. split; [reflexivity|]. now apply (digitpart_nonneg s false 0 n).
  - right. split; [|reflexivity].
    destruct (all_chars is_ascii_digit s) eqn:Hdec; [|reflexivity].
    destruct (digitpart_decimal s Hdec false 0) as [n Hn'].
    + now rewrite Hne.
    + congruence.
Qed.

End DigitFacts.

(** ** Quantities, badge counts and totals *)

Section CountFacts.
Import PyStr PyNum PyList Spec BasePage Examples.

Lemma quantity_of_text (text : option string) :
  CartPage.quantity_of text
  = if isdigit (text_or_zero text) then py_int (text_or_zero text) else Ok 0.
Proof. destruct text as [[|c s]|]; reflexivity. Qed.

Lemma quantity_of_cases (text : option string) :
  (digits_without_value (text_or_zero text) = false /\
   exists q, CartPage.quantity_of text = Ok q /\ 0 <= q) \/
  (digits_without_value (text_or_zero text) = true /\
   CartPage.quantity_of text = Raise ValueError).
Proof.
  rewrite quantity_of_text.
  destruct (isdigit (text_or_zero text)) eqn:Hd.
  - apply py_int_of_digits_cases, Hd.
  - left. unfold digits_without_value. rewrite Hd. split; [reflexivity|].
    exists 0. split; [reflexivity | lia].
Qed.

(** The loop of [get_cart_item_quantities] is a comprehension. *)
Lemma quantities_loop (texts : list (option string)) (acc : list Z) :
  for_each (fun (quantities : list Z) element =>
              q ← CartPage.quantity_of element; Ok (quantities ++ [q])%list)
    texts acc
  = (qs ← comprehension CartPage.quantity_of texts; Ok (acc ++ qs)%list).
Proof.
  revert acc. induction texts as [|text rest IH]; intros acc; cbn.
  - now rewrite app_nil_r.
  - destruct (CartPage.quantity_of text) as [q|e]; cbn; [|reflexivity].
    rewrite IH. destruct (comprehension CartPage.quantity_of rest); cbn; [|reflexivity].
    now rewrite <- app_assoc.
Qed.

Lemma get_cart_item_quantities_comprehension (self : BasePage) :
  CartPage.get_cart_item_quantities self
  = comprehension CartPage.quantity_of (all_text_content (page self) CartPage.CART_QUANTITY).
Proof.
  unfold CartPage.get_cart_item_quantities. rewrite quantities_loop.
  now destruct (comprehension _ _).
Qed.

(** X5: when [get_cart_item_quantities] returns, it returns one quantity
    for each quantity element of the page, and none of them is
    negative. *)
Theorem get_cart_item_quantities_shape (self : BasePage) (quantities : list Z) :
  CartPage.get_cart_item_quantities self = Ok quantities ->
  length quantities = length (all_text_content (page self) CartPage.CART_QUANTITY) /\
  Forall (fun q => 0 <= q) quantities.
Proof.
  rewrite get_cart_item_quantities_comprehension. intros H%comprehension_Forall2.
  induction H as [|text q texts qs Hq _ [IHlen IHpos]]; [split; [reflexivity|constructor]|].
  split; [cbn; now rewrite IHlen|]. constructor; [|assumption].
  destruct (quantity_of_cases text) as [(_ & q' & Hq' & Hpos)|[_ Hraise]]; congruence.
Qed.

Lemma get_cart_item_quantities_shape_witness :
  CartPage.get_cart_item_quantities (on (page_listing [] ["2"; "-1"; "x"; "10"]))
  = Ok [2; 0; 0; 10] /\
  length [2; 0; 0; 10]
  = length (all_text_content (page (on (page_listing [] ["2"; "-1"; "x"; "10"])))
              CartPage.CART_QUANTITY) /\
  Forall (fun q => 0 <= q) [2; 0; 0; 10].
Proof.
  assert (H : CartPage.get_cart_item_quantities
                (on (page_listing [] ["2"; "-1"; "x"; "10"])) = Ok [2; 0; 0; 10])
    by reflexivity.
  split; [assumption|].
  exact (get_cart_item_quantities_shape _ _ H).
Defined.

(** X6: when the quantity elements have been read and the text of one of
    them is accepted by [str.isdigit] but holds a digit that is no decimal
    digit, as a superscript two, [get_cart_item_quantities] raises a
    [ValueError]: the [isdigit] guard does not keep [int] from failing. *)
Theorem get_cart_item_quantities_raises (self : BasePage) :
  Exists (fun text => digits_without_value (text_or_zero text) = true)
    (all_text_content (page self) CartPage.CART_QUANTITY) ->
  CartPage.get_cart_item_quantities self = Raise ValueError.
Proof.
  rewrite get_cart_item_quantities_comprehension.
  induction (all_text_content (page self) CartPage.CART_QUANTITY) as [|text texts IH];
    intros Hex; [inversion Hex|].
  cbn [comprehension].
  destruct (quantity_of_cases text) as [(Hok & q & Hq & _)|[_ Hraise]].
  - rewrite Hq. cbn.
    inversion Hex as [? ? Hhere|? ? Hthere]; subst; [congruence|].
    now rewrite (IH Hthere).
  - now rewrite Hraise.
Qed.

Lemma get_cart_item_quantities_raises_witness :
  Exists (fun text => digits_without_value (text_or_zero text) = true)
    (all_text_content (page (on (page_listing [] ["1"; superscript_two])))
       CartPage.CART_QUANTITY) /\
  CartPage.get_cart_item_quantities (on (page_listing [] ["1"; superscript_two]))
  = Raise ValueError.
Proof.
  assert (H : Exists (fun text => digits_without_value (text_or_zero text) = true)
                (all_text_content (page (on (page_listing [] ["1"; superscript_two])))
                   CartPage.CART_QUANTITY))
    by (right; left; reflexivity).
  split; [assumption|].
  exact (get_cart_item_quantities_raises (on (page_listing [] ["1"; superscript_two])) H).
Defined.

Lemma inventory_badge_read (self : BasePage) (n : Z) :
  InventoryPage.get_cart_badge_count self = Ok n ->
  n = 0 \/
  exists text,
    get_text self InventoryPage.SHOPPING_CART_BADGE None = Ok text /\
    isdigit text = true /\ py_int text = Ok n.
Proof.
  unfold InventoryPage.get_cart_badge_count. rewrite is_element_visible_value. cbn.
  destruct (wait_for _ _ _ _); cbn; try (intros [= <-]; now left).
  destruct (get_text self InventoryPage.SHOPPING_CART_BADGE None) as [text|e]; cbn;
    [|discriminate].
  destruct (isdigit text) eqn:Hd; [|intros [= <-]; now left].
  intros Hn. right. eauto.
Qed.

(** X7: the badge count of the inventory page is never negative. *)
Theorem inventory_badge_count_nonneg (self : BasePage) (n : Z) :
  InventoryPage.get_cart_badge_count self = Ok n -> 0 <= n.
Proof.
  intros [->|(text & _ & Hd & Hn)]%inventory_badge_read; [lia|].
  destruct (py_int_of_digits_cases text Hd) as [(_ & n' & Hn' & Hpos)|[_ Hraise]];
    congruence.
Qed.

Lemma inventory_badge_count_nonneg_witness :
  InventoryPage.get_cart_badge_count (on (page_with_text "12")) = Ok 12 /\ 0 <= 12.
Proof.
  assert (H : InventoryPage.get_cart_badge_count (on (page_with_text "12")) = Ok 12)
    by reflexivity.
  split; [assumption|].
  exact (inventory_badge_count_nonneg _ _ H).
Defined.

(** X8: where the badge is shown with the same text to both pages, a
    count other than [0] on the inventory page is the count on the cart
    page. *)
Theorem badge_counts_agree (self : BasePage) (text : option string) (n : Z) :
  shown (page self) InventoryPage.SHOPPING_CART_BADGE text ->
  shown (page self) CartPage.SHOPPING_CART_BADGE text ->
  InventoryPage.get_cart_badge_count self = Ok n ->
  n <> 0 ->
  CartPage.get_cart_badge_count self = Ok n.
Proof.
  intros Hinv Hcart Hn Hnz.
  destruct (shown_visible self _ _ Hinv) as [_ Htext].
  destruct (shown_visible self _ _ Hcart) as [Hvis Htext'].
  apply inventory_badge_read in Hn as [->|(t & Ht & _ & Hint)]; [contradiction|].
  rewrite Htext in Ht. injection Ht as <-.
  unfold CartPage.get_cart_badge_count. rewrite Hvis. cbn. rewrite Htext'. cbn.
  now rewrite Hint.
Qed.

Lemma badge_counts_agree_witness :
  shown (page (on (page_with_text "3"))) InventoryPage.SHOPPING_CART_BADGE (Some "3") /\
  shown (page (on (page_with_text "3"))) CartPage.SHOPPING_CART_BADGE (Some "3") /\
  InventoryPage.get_cart_badge_count (on (page_with_text "3")) = Ok 3 /\
  3 <> 0 /\
  CartPage.get_cart_badge_count (on (page_with_text "3")) = Ok 3.
Proof.
  assert (H1 : shown (page (on (page_with_text "3")))
                 InventoryPage.SHOPPING_CART_BADGE (Some "3"))
    by (split; [intros t|]; reflexivity).
  assert (H2 : shown (page (on (page_with_text "3")))
                 CartPage.SHOPPING_CART_BADGE (Some "3"))
    by (split; [intros t|]; reflexivity).
  assert (H3 : InventoryPage.get_cart_badge_count (on (page_with_text "3")) = Ok 3)
    by reflexivity.
  assert (H4 : 3 <> 0) by lia.
  repeat (split; [assumption|]).
  exact (badge_counts_agree _ _ _ H1 H2 H3 H4).
Defined.

End CountFacts.

(** ** Failures and edge cases of the total price *)

Section TotalPriceFacts.
Import PyStr PyNum PyList Spec BasePage Examples.

(** [float()] of a string raises nothing but [ValueError]. *)
Lemma py_float_raises (s : string) (e : exn_class) :
  py_float s = Raise e -> e = ValueError.
Proof.
  unfold py_float. destruct (drop_underscores _ s) as [s1|]; [|now intros [= <-]].
  destruct (take_sign _) as [neg body]. destruct (decimal_literal neg body); [discriminate|].
  destruct (_ || _); [discriminate|]. destruct (String.eqb _ _); [discriminate|].
  now intros [= <-].
Qed.

(** The conversion of an [int] raises nothing but [OverflowError]. *)
Lemma float_of_int_raises (n : Z) (e : exn_class) :
  float_of_int n = Raise e -> e = OverflowError.
Proof.
  unfold float_of_int. destruct (binary_normalize _ _ _ _ _); try discriminate.
  now intros [= <-].
Qed.

(** X9: the summing loop of [calculate_total_price], entered with any
    prices and quantities, at any index and with any subtotal, raises
    nothing but a [ValueError], for a price that is no number, or an
    [OverflowError], for a quantity too large for a [float]: [quantities]
    is never read out of range. *)
Theorem total_from_raises (quantities : list Z) (prices : list string) :
  forall (i : nat) (total : float) (e : exn_class),
  CartPage.total_from quantities i prices total = Raise e ->
  e = ValueError \/ e = OverflowError.
Proof.
  induction prices as [|price rest IH]; intros i total e; cbn [CartPage.total_from];
    [discriminate|].
  destruct (i <? length quantities)%nat eqn:Hlt; [|apply IH].
  apply Nat.ltb_lt in Hlt. destruct (lookup_lt_is_Some_2 quantities i Hlt) as [q Hq].
  destruct (py_float _) as [v|e1] eqn:Hv; cbn.
  - unfold getitem. rewrite Hq. cbn. unfold fmul_int.
    destruct (float_of_int q) as [f|e2] eqn:Hf; cbn; [apply IH|].
    intros [= <-]. right. now apply (float_of_int_raises q).
  - intros [= <-]. left. now apply (py_float_raises _ _ Hv).
Qed.

Lemma total_from_raises_witness :
  CartPage.total_from [2; 1] 0 ["$5"; "free"; "$1"] fzero = Raise ValueError /\
  (ValueError = ValueError \/ ValueError = OverflowError).
Proof.
  assert (H : CartPage.total_from [2; 1] 0 ["$5"; "free"; "$1"] fzero = Raise ValueError)
    by reflexivity.
  split; [assumption|].
  exact (total_from_raises _ _ _ _ _ H).
Defined.

(** X10: a cart that shows no quantity has the total [0.0], whatever its
    prices are, numbers or not; so has a cart that shows no price, when
    its quantities can be read. *)
Theorem calculate_total_price_nothing_to_add (self : BasePage) :
  (all_text_content (page self) CartPage.CART_QUANTITY = [] ->
   CartPage.calculate_total_price self = Ok fzero) /\
  (forall quantities,
     all_text_content (page self) CartPage.CART_ITEM_PRICE = [] ->
     CartPage.get_cart_item_quantities self = Ok quantities ->
     CartPage.calculate_total_price self = Ok fzero).
Proof.
  split.
  - intros Hnone. unfold CartPage.calculate_total_price, CartPage.get_cart_item_quantities.
    rewrite Hnone. cbn [for_each]. cbn [mbind outcome_bind PyExn.bind].
    apply total_from_past_end. cbn. lia.
  - intros quantities Hnone Hq.
    unfold CartPage.calculate_total_price, CartPage.get_cart_item_prices.
    rewrite Hq, Hnone. reflexivity.
Qed.

Lemma calculate_total_price_nothing_to_add_witness :
  (all_text_content (page (on (page_listing ["free"; "$5"] []))) CartPage.CART_QUANTITY = [] /\
   CartPage.calculate_total_price (on (page_listing ["free"; "$5"] [])) = Ok fzero) /\
  (all_text_content (page (on (page_listing [] ["1"; "2"]))) CartPage.CART_ITEM_PRICE = [] /\
   CartPage.get_cart_item_quantities (on (page_listing [] ["1"; "2"])) = Ok [1; 2] /\
   CartPage.calculate_total_price (on (page_listing [] ["1"; "2"])) = Ok fzero).
Proof.
  assert (H1 : all_text_content (page (on (page_listing ["free"; "$5"] [])))
                 CartPage.CART_QUANTITY = []) by reflexivity.
  assert (H2 : all_text_content (page (on (page_listing [] ["1"; "2"])))
                 CartPage.CART_ITEM_PRICE = []) by reflexivity.
  assert (H3 : CartPage.get_cart_item_quantities (on (page_listing [] ["1"; "2"]))
               = Ok [1; 2]) by reflexivity.
  split; split; try assumption.
  - exact (proj1 (calculate_total_price_nothing_to_add _) H1).
  - split; [assumption|].
    exact (proj2 (calculate_total_price_nothing_to_add _) _ H2 H3).
Defined.

Lemma total_from_unreadable_price (quantities : list Z) (prices : list string) :
  forall (i : nat) (total : float),
  Exists (fun price => raises (py_float (replace price "$" EmptyString)))
    (take (length quantities - i) prices) ->
  raises (CartPage.total_from quantities i prices total).
Proof.
  induction prices as [|price rest IH]; intros i total Hex.
  - rewrite take_nil in Hex. inversion Hex.
  - cbn [CartPage.total_from].
    destruct (i <? length quantities)%nat eqn:Hlt.
    + apply Nat.ltb_lt in Hlt.
      replace (length quantities - i)%nat with (S (length quantities - S i)) in Hex by lia.
      cbn [firstn] in Hex.
      destruct (py_float (replace price "$" EmptyString)) as [v|e1] eqn:Hv; cbn;
        [|now exists e1].
      destruct (getitem quantities i) as [q|e2]; cbn; [|now exists e2].
      destruct (fmul_int v q) as [a|e3]; cbn; [|now exists e3].
      apply IH. inversion Hex as [? ? [e He]|]; subst; [congruence | assumption].
    + apply Nat.ltb_ge in Hlt.
      replace (length quantities - i)%nat with 0%nat in Hex by lia.
      inversion Hex.
Qed.

(** X11: with the quantities read, [calculate_total_price] raises as soon
    as one of the prices that have a quantity is no number. *)
Theorem calculate_total_price_unreadable_price (self : BasePage) (quantities : list Z) :
  CartPage.get_cart_item_quantities self = Ok quantities ->
  Exists (fun price => raises (py_float (replace price "$" EmptyString)))
    (take (length quantities) (CartPage.get_cart_item_prices self)) ->
  raises (CartPage.calculate_total_price self).
Proof.
  intros Hq Hex. unfold CartPage.calculate_total_price. rewrite Hq. cbn.
  apply total_from_unreadable_price. now rewrite Nat.sub_0_r.
Qed.

Lemma calculate_total_price_unreadable_price_witness :
  CartPage.get_cart_item_quantities (on (page_listing ["$5"; EmptyString] ["1"; "2"])) = Ok [1; 2] /\
  Exists (fun price => raises (py_float (replace price "$" EmptyString)))
    (take (length [1; 2])
       (CartPage.get_cart_item_prices (on (page_listing ["$5"; EmptyString] ["1"; "2"])))) /\
  raises (CartPage.calculate_total_price (on (page_listing ["$5"; EmptyString] ["1"; "2"]))).
Proof.
  assert (H1 : CartPage.get_cart_item_quantities (on (page_listing ["$5"; EmptyString] ["1"; "2"]))
               = Ok [1; 2]) by reflexivity.
  assert (H2 : Exists (fun price => raises (py_float (replace price "$" EmptyString)))
    (take (length [1; 2])
       (CartPage.get_cart_item_prices (on (page_listing ["$5"; EmptyString] ["1"; "2"])))))
    by (right; left; exists ValueError; reflexivity).
  split; [assumption|]. split; [assumption|].
  exact (calculate_total_price_unreadable_price _ _ H1 H2).
Defined.

End TotalPriceFacts.

(** ** Edge cases of the order checks *)

Section OrderCheckFacts.
Import PyStr PyNum PyList Spec BasePage Examples.

Lemma comprehension_raises {A B : Type} (f : A -> outcome B) (xs : list A) :
  raises (comprehension f xs) <-> Exists (fun x => raises (f x)) xs.
Proof.
  induction xs as [|x xs IH]; cbn.
  - split; [intros [e He]; discriminate | inversion 1].
  - destruct (f x) as [y|e] eqn:Hx; cbn.
    + destruct (comprehension f xs) as [ys|e'] eqn:Hxs; cbn.
      * split; [intros [e He]; discriminate|].
        intros Hex. inversion Hex as [? ? [e He]|? ? Hthere]; subst; [congruence|].
        apply IH in Hthere as [e He]. congruence.
      * split; [intros _; right; apply IH; now exists e'|intros _; now exists e'].
    + split; [intros _; left; rewrite Hx; now exists e | intros _; now exists e].
Qed.

Lemma comprehension_raises_what {A B : Type} (f : A -> outcome B) (xs : list A)
    (e : exn_class) :
  comprehension f xs = Raise e -> Exists (fun x => f x = Raise e) xs.
Proof.
  induction xs as [|x xs IH]; cbn; [discriminate|].
  destruct (f x) as [y|e1] eqn:Hx; cbn.
  - destruct (comprehension f xs) as [ys|e2]; cbn; [discriminate|].
    intros [= <-]. right. now apply IH.
  - intros [= <-]. now left.
Qed.

(** X12: when the prices have been read and one of them, its [$]
    removed, is no number, [verify_products_sorted_by_price] raises a
    [ValueError], whichever direction is asked for: it does not answer
    [False]. *)
Theorem verify_products_sorted_by_price_raises (self : BasePage) (ascending : bool) :
  Exists (fun price => raises (InventoryPage.price_value price))
    (InventoryPage.get_product_prices self) ->
  InventoryPage.verify_products_sorted_by_price self ascending = Raise ValueError.
Proof.
  intros Hex. unfold InventoryPage.verify_products_sorted_by_price.
  apply comprehension_raises in Hex as [e He]. rewrite He. cbn. f_equal.
  apply comprehension_raises_what in He.
  apply List.Exists_exists in He as (price & _ & Hprice).
  now apply (py_float_raises _ _ Hprice).
Qed.

Lemma verify_products_sorted_by_price_raises_witness :
  Exists (fun price => raises (InventoryPage.price_value price))
    (InventoryPage.get_product_prices (on (page_listing ["$7.99"; "free"] []))) /\
  InventoryPage.verify_products_sorted_by_price
    (on (page_listing ["$7.99"; "free"] [])) false = Raise ValueError.
Proof.
  assert (H : Exists (fun price => raises (InventoryPage.price_value price))
                (InventoryPage.get_product_prices (on (page_listing ["$7.99"; "free"] []))))
    by (right; left; exists ValueError; reflexivity).
  split; [assumption|].
  exact (verify_products_sorted_by_price_raises
           (on (page_listing ["$7.99"; "free"] [])) false H).
Defined.

Lemma lex_le_antisym (a b : string) : lex_le a b -> lex_le b a -> a = b.
Proof.
  intros [Hab|Hab] [Hba|Hba]; auto.
  apply str_ltb_asym in Hab. congruence.
Qed.

(** A list in ascending and in descending order repeats one element. *)
Lemma Sorted_both_ways (l : list string) :
  Sorted lex_le l /\ Sorted (fun a b => lex_le b a) l <->
  forall a b, In a l -> In b l -> a = b.
Proof.
  induction l as [|x l IH].
  - split; [intros _ a b []|intros _; split; constructor].
  - split.
    + intros [Hup Hdown].
      inversion Hup as [|? ? Hup' Hhd]; inversion Hdown as [|? ? Hdown' Hhd']; subst.
      assert (Hl : forall a b, In a l -> In b l -> a = b) by (apply IH; now split).
      assert (Hx : forall a, In a l -> x = a).
      { destruct l as [|y l']; [intros a []|].
        inversion Hhd; inversion Hhd'; subst.
        intros a Ha. rewrite (lex_le_antisym x y) by assumption.
        apply Hl; [now left | assumption]. }
      intros a b [<-|Ha] [<-|Hb]; auto. symmetry. now apply Hx.
    + intros Hall.
      assert (Hl : Sorted lex_le l /\ Sorted (fun a b => lex_le b a) l).
      { apply IH. intros a b Ha Hb. apply Hall; now right. }
      destruct Hl as [Hup Hdown].
      split; (constructor; [assumption|]);
        destruct l as [|y l']; constructor; left;
        [|symmetry]; apply Hall; cbn; auto.
Qed.

Lemma names_check_Sorted (names : list string) (ascending : bool) :
  list_eqb String.eqb names
    (if ascending then sorted str_ltb names else sorted_reverse str_ltb names) = true
  <-> Sorted (name_order ascending) names.
Proof.
  rewrite names_check. split.
  - now intros (s & [_ Hs] & ->).
  - intros Hs. exists names. split; [split; [reflexivity | assumption] | reflexivity].
Qed.

(** X13: the names pass the check for the ascending and the check for the
    descending order exactly when all displayed names are the same; an
    inventory of no or of one product passes both. *)
Theorem sorted_both_ways_iff (self : BasePage) :
  (InventoryPage.verify_products_sorted_alphabetically self true = true /\
   InventoryPage.verify_products_sorted_alphabetically self false = true <->
   forall a b,
     In a (InventoryPage.get_product_names self) ->
     In b (InventoryPage.get_product_names self) -> a = b) /\
  ((length (InventoryPage.get_product_names self) <= 1)%nat ->
   InventoryPage.verify_products_sorted_alphabetically self true = true /\
   InventoryPage.verify_products_sorted_alphabetically self false = true).
Proof.
  assert (Hcheck : forall ascending,
            InventoryPage.verify_products_sorted_alphabetically self ascending = true
            <-> Sorted (name_order ascending) (InventoryPage.get_product_names self)).
  { intros ascending. apply names_check_Sorted. }
  rewrite !Hcheck. cbn [name_order].
  split; [apply Sorted_both_ways|].
  intros Hlen. apply Sorted_both_ways.
  destruct (InventoryPage.get_product_names self) as [|x [|y l]]; cbn in *.
  - intros a b [].
  - intros a b [<-|[]] [<-|[]]. reflexivity.
  - lia.
Qed.

Lemma sorted_both_ways_iff_witness :
  (length (InventoryPage.get_product_names (on (page_naming ["Sauce Labs Onesie"]))) <= 1)%nat /\
  InventoryPage.verify_products_sorted_alphabetically
    (on (page_naming ["Sauce Labs Onesie"])) true = true /\
  InventoryPage.verify_products_sorted_alphabetically
    (on (page_naming ["Sauce Labs Onesie"])) false = true.
Proof.
  assert (H : (length (InventoryPage.get_product_names
                         (on (page_naming ["Sauce Labs Onesie"]))) <= 1)%nat)
    by (vm_compute; lia).
  split; [assumption|].
  exact (proj2 (sorted_both_ways_iff (on (page_naming ["Sauce Labs Onesie"]))) H).
Defined.

End OrderCheckFacts.

(** ** The settings of the process *)

Section SettingsFacts.
Import config Spec Examples.

(** X14: once [get_config] has returned the settings, every later call
    returns the same settings and leaves the module variable as it is,
    whatever has become of the environment. *)
Theorem get_config_settled
    (env env' : Environment) (g g' : Globals) (cfg : Config) :
  get_config env g = (Ok cfg, g') ->
  get_config env' g' = (Ok cfg, g').
Proof.
  unfold get_config. destruct g as [c|].
  - now intros [= -> <-].
  - destruct (load_settings env) as [c|e]; [|discriminate].
    destruct (makedirs env (allure_results_dir c)); cbn; [|discriminate].
    destruct (makedirs env (screenshots_dir c)); cbn; [|discriminate].
    destruct (makedirs env (videos_dir c)); cbn; [|discriminate].
    destruct (makedirs env (dirname env (html_report_path c))); cbn; [|discriminate].
    now intros [= -> <-].
Qed.

Lemma get_config_settled_witness :
  get_config read_only_environment (Some default_config)
  = (Ok default_config, Some default_config) /\
  get_config no_environment (Some default_config)
  = (Ok default_config, Some default_config).
Proof.
  assert (H : get_config read_only_environment (Some default_config)
              = (Ok default_config, Some default_config)) by reflexivity.
  split; [assumption|].
  exact (get_config_settled read_only_environment no_environment _ _ _ H).
Defined.

(** X15: when the settings load and a directory cannot be made, the
    first call of [get_config] raises, the module variable holds the
    settings all the same, and the next call returns them without making
    any directory: the failure is not tried again. *)
Theorem get_config_directories_once
    (env env' : Environment) (g' : Globals) (cfg : Config) (e : exn_class) :
  load_settings env = Ok cfg ->
  get_config env None = (Raise e, g') ->
  g' = Some cfg /\ get_config env' g' = (Ok cfg, g').
Proof.
  unfold get_config at 1. intros ->.
  intros [= _ <-]. split; reflexivity.
Qed.

Lemma get_config_directories_once_witness :
  load_settings read_only_environment = Ok default_config /\
  get_config read_only_environment None = (Raise OSError, Some default_config) /\
  Some default_config = Some default_config /\
  get_config read_only_environment (Some default_config)
  = (Ok default_config, Some default_config).
Proof.
  assert (H1 : load_settings read_only_environment = Ok default_config) by reflexivity.
  assert (H2 : get_config read_only_environment None
               = (Raise OSError, Some default_config)) by reflexivity.
  split; [assumption|]. split; [assumption|].
  exact (get_config_directories_once read_only_environment read_only_environment
           _ _ _ H1 H2).
Defined.

(** X16: [get_user_credentials] fails exactly when [get_config] fails,
    with the same exception, and leaves the module variable as
    [get_config] leaves it: the lookup adds no failure of its own. *)
Theorem get_user_credentials_propagates
    (env : Environment) (g : Globals) (user_type : string) :
  snd (get_user_credentials env user_type g) = snd (get_config env g) /\
  forall e,
    fst (get_user_credentials env user_type g) = Raise e <->
    fst (get_config env g) = Raise e.
Proof.
  destruct (get_config env g) as [r g'] eqn:Hcfg. destruct r as [cfg|e'].
  - rewrite (get_user_credentials_value env g g' cfg user_type Hcfg). cbn.
    split; [reflexivity|]. intros e. split; discriminate.
  - unfold get_user_credentials. rewrite Hcfg. cbn. split; [reflexivity|].
    intros e. split; intros [= <-]; reflexivity.
Qed.

Lemma get_user_credentials_propagates_witness :
  fst (get_config no_environment None) = Raise ValueError /\
  fst (get_user_credentials no_environment "locked" None) = Raise ValueError.
Proof.
  assert (H : fst (get_config no_environment None) = Raise ValueError) by reflexivity.
  split; [assumption|].
  exact (proj2 (proj2 (get_user_credentials_propagates no_environment None "locked")
                  ValueError) H).
Defined.

End SettingsFacts.

(** ** The login page *)

Section LoginFacts.
Import PyStr config BasePage Spec Examples.

(** X17: [is_loaded] of the login page never raises: it returns whether
    the waits for the logo, the two inputs and the button, of five
    seconds each, all succeed. *)
Theorem login_is_loaded_value (self : BasePage) :
  LoginPage.is_loaded self
  = Ok (wait_succeeds (wait_for (page self) LoginPage.LOGIN_LOGO "visible" 5000)
        && wait_succeeds (wait_for (page self) LoginPage.USERNAME_INPUT "visible" 5000)
        && wait_succeeds (wait_for (page self) LoginPage.PASSWORD_INPUT "visible" 5000)
        && wait_succeeds (wait_for (page self) LoginPage.LOGIN_BUTTON "visible" 5000)).
Proof.
  unfold LoginPage.is_loaded. rewrite !is_element_visible_value. cbn [timeout_or].
  destruct (wait_for (page self) LoginPage.LOGIN_LOGO "visible" 5000);
    destruct (wait_for (page self) LoginPage.USERNAME_INPUT "visible" 5000);
    destruct (wait_for (page self) LoginPage.PASSWORD_INPUT "visible" 5000);
    destruct (wait_for (page self) LoginPage.LOGIN_BUTTON "visible" 5000);
    reflexivity.
Qed.

(** X18: the three login shortcuts enter the user name and the password
    that [get_user_credentials] returns for their category in the process
    whose settings the page object holds. *)
Theorem login_shortcuts_use_credentials (env : Environment) (self : BasePage)
    (ctl : Controls) :
  (exists u p,
     get_user_credentials env "standard" (Some (config self))
     = (Ok (credentials u p), Some (config self)) /\
     LoginPage.login_standard_user self ctl = LoginPage.login self ctl u p) /\
  (exists u p,
     get_user_credentials env "locked" (Some (config self))
     = (Ok (credentials u p), Some (config self)) /\
     LoginPage.login_locked_user self ctl = LoginPage.login self ctl u p) /\
  (exists u p,
     get_user_credentials env "problem" (Some (config self))
     = (Ok (credentials u p), Some (config self)) /\
     LoginPage.login_problem_user self ctl = LoginPage.login self ctl u p).
Proof.
  assert (Hcfg : get_config env (Some (config self))
                 = (Ok (config self), Some (config self))) by reflexivity.
  repeat split; eexists; eexists;
    (split; [apply (get_user_credentials_value env _ _ _ _ Hcfg)|reflexivity]).
Qed.

(** X19: a message that [get_error_message] returns and that is not empty
    is one that [is_error_message_displayed] reports as displayed. *)
Theorem error_message_displayed (self : BasePage) (message : string) :
  LoginPage.get_error_message self = Ok message ->
  message <> EmptyString ->
  LoginPage.is_error_message_displayed self = Ok true.
Proof.
  unfold LoginPage.get_error_message, LoginPage.is_error_message_displayed.
  rewrite is_element_visible_value.
  destruct (wait_for _ _ _ _); cbn; try reflexivity; intros [= <-]; contradiction.
Qed.

Lemma error_message_displayed_witness :
  LoginPage.get_error_message (on (page_with_text "Epic sadface")) = Ok "Epic sadface" /\
  "Epic sadface" <> EmptyString /\
  LoginPage.is_error_message_displayed (on (page_with_text "Epic sadface")) = Ok true.
Proof.
  assert (H1 : LoginPage.get_error_message (on (page_with_text "Epic sadface"))
               = Ok "Epic sadface") by reflexivity.
  assert (H2 : "Epic sadface" <> EmptyString) by discriminate.
  split; [assumption|]. split; [assumption|].
  exact (error_message_displayed _ _ H1 H2).
Defined.

End LoginFacts.

(** ** Page checks and clicks *)

Section PageFacts.
Import PyStr config BasePage Spec Examples.

(** Waiting for an element that is not visible fails with an error of
    Playwright. *)
Lemma wait_for_element_hidden (self : BasePage) (selector : string) (timeout : option Z) :
  hidden (page self) selector ->
  exists e, wait_for_element self selector timeout = Raise e /\
            issubclass e PlaywrightError = true.
Proof.
  intros Hhidden. unfold wait_for_element.
  specialize (Hhidden (timeout_or timeout (BasePage.timeout self))).
  destruct (wait_for _ _ _ _); cbn in *; [discriminate| |]; eexists; split; reflexivity.
Qed.

(** X20: a product whose remove control is not visible is reported as not
    in the cart, and removing it raises an error of Playwright instead of
    doing nothing. *)
Theorem remove_product_not_in_cart (self : BasePage) (product_name : string) :
  hidden (page self)
    (InventoryPage.data_test ("remove-" +:+ InventoryPage.test_id product_name)) ->
  InventoryPage.is_product_in_cart self product_name = Ok false /\
  exists e,
    InventoryPage.remove_product_from_cart self product_name = Raise e /\
    issubclass e PlaywrightError = true.
Proof.
  intros Hhidden. split.
  - unfold InventoryPage.is_product_in_cart. now apply hidden_invisible.
  - unfold InventoryPage.remove_product_from_cart, click_element.
    destruct (wait_for_element_hidden self _ None Hhidden) as (e & -> & He).
    exists e. split; [reflexivity | assumption].
Qed.

Lemma remove_product_not_in_cart_witness :
  hidden (page (on blank_page))
    (InventoryPage.data_test ("remove-" +:+ InventoryPage.test_id "Sauce Labs Onesie")) /\
  InventoryPage.is_product_in_cart (on blank_page) "Sauce Labs Onesie" = Ok false /\
  exists e,
    InventoryPage.remove_product_from_cart (on blank_page) "Sauce Labs Onesie" = Raise e /\
    issubclass e PlaywrightError = true.
Proof.
  assert (H : hidden (page (on blank_page))
                (InventoryPage.data_test
                   ("remove-" +:+ InventoryPage.test_id "Sauce Labs Onesie")))
    by (intros t; reflexivity).
  split; [assumption|].
  exact (remove_product_not_in_cart (on blank_page) "Sauce Labs Onesie" H).
Defined.

(** X21: a page that [is_loaded] accepts is one that the verification of
    its title accepts, on the inventory page and on the cart page. *)
Theorem is_loaded_verifies (self : BasePage) :
  (InventoryPage.is_loaded self = Ok true ->
   InventoryPage.verify_products_page self = Ok true) /\
  (CartPage.is_loaded self = Ok true ->
   CartPage.verify_cart_page self = Ok true).
Proof.
  split.
  - unfold InventoryPage.is_loaded, InventoryPage.verify_products_page.
    rewrite !is_element_visible_value.
    destruct (wait_for (page self) InventoryPage.PAGE_TITLE _ _); cbn; try discriminate.
    destruct (wait_for (page self) InventoryPage.INVENTORY_CONTAINER _ _); cbn;
      try discriminate.
    destruct (get_text self InventoryPage.PAGE_TITLE None) as [title|e]; cbn;
      [|discriminate].
    intros [= Htitle]. apply String.eqb_eq in Htitle. now subst.
  - unfold CartPage.is_loaded, CartPage.verify_cart_page.
    rewrite !is_element_visible_value.
    destruct (wait_for (page self) CartPage.PAGE_TITLE _ _); cbn; try discriminate.
    destruct (get_text self CartPage.PAGE_TITLE None) as [title|e]; cbn; [|discriminate].
    intros [= Htitle]. apply String.eqb_eq in Htitle. now subst.
Qed.

Lemma is_loaded_verifies_witness :
  (InventoryPage.is_loaded (on (page_with_text "Products")) = Ok true /\
   InventoryPage.verify_products_page (on (page_with_text "Products")) = Ok true) /\
  (CartPage.is_loaded (on (page_with_text "Your Cart")) = Ok true /\
   CartPage.verify_cart_page (on (page_with_text "Your Cart")) = Ok true).
Proof.
  assert (H1 : InventoryPage.is_loaded (on (page_with_text "Products")) = Ok true)
    by reflexivity.
  assert (H2 : CartPage.is_loaded (on (page_with_text "Your Cart")) = Ok true)
    by reflexivity.
  split; (split; [assumption|]).
  - exact (proj1 (is_loaded_verifies _) H1).
  - exact (proj2 (is_loaded_verifies _) H2).
Defined.

(** X24: on a page whose user-name input is not visible, [login] raises
    an error of Playwright whatever the credentials and however the
    other controls answer. *)
Theorem login_without_input (self : BasePage) (ctl : Controls) (username password : string) :
  hidden (page self) LoginPage.USERNAME_INPUT ->
  exists e,
    LoginPage.login self ctl username password = Raise e /\
    issubclass e PlaywrightError = true.
Proof.
  intros Hhidden.
  unfold LoginPage.login, LoginPage.enter_username, fill_text.
  destruct (wait_for_element_hidden self _ None Hhidden) as (e & -> & He).
  exists e. split; [reflexivity | assumption].
Qed.

Lemma login_without_input_witness :
  hidden (page (on blank_page)) LoginPage.USERNAME_INPUT /\
  exists e,
    LoginPage.login (on blank_page) ready_controls "standard_user" "secret_sauce" = Raise e /\
    issubclass e PlaywrightError = true.
Proof.
  assert (H : hidden (page (on blank_page)) LoginPage.USERNAME_INPUT)
    by (intros t; reflexivity).
  split; [assumption|].
  exact (login_without_input (on blank_page) ready_controls _ _ H).
Defined.

End PageFacts.

(** ** Lines, words and user names *)

Section WordFacts.
Import PyStr config BasePage Spec Examples.

Lemma prefix_cons (a b : ascii) (s1 s2 : string) :
  String.prefix (String a s1) (String b s2) = Ascii.eqb a b && String.prefix s1 s2.
Proof.
  cbn. destruct (ascii_dec a b) as [->|Hne].
  - now rewrite Ascii.eqb_refl.
  - apply Ascii.eqb_neq in Hne. now rewrite Hne.
Qed.

Lemma prefix_append (s1 s2 r : string) :
  String.prefix s1 s2 = true -> String.prefix s1 (s2 +:+ r) = true.
Proof.
  revert s2. induction s1 as [|a s1 IH]; intros s2; [now destruct (s2 +:+ r)|].
  destruct s2 as [|b s2]; [discriminate|].
  change (String b s2 +:+ r) with (String b (s2 +:+ r)). rewrite !prefix_cons.
  intros [Hab Hrest]%andb_prop. rewrite Hab. now apply IH.
Qed.

(** The pieces of a string are never none, and the first is how the
    string begins. *)
Lemma pieces_head (p : ascii -> bool) (s : string) :
  exists h t r, pieces p s = h :: t /\ s = h +:+ r.
Proof.
  induction s as [|c rest (h & t & r & Hp & Hs)]; cbn.
  - now exists EmptyString, [], EmptyString.
  - destruct (p c).
    + now exists EmptyString, (pieces p rest), (String c rest).
    + rewrite Hp. exists (String c h), t, r. split; [reflexivity|].
      change (String c h +:+ r) with (String c (h +:+ r)). now f_equal.
Qed.

(** No piece holds a separator. *)
Lemma pieces_no_separator (p : ascii -> bool) (s w : string) :
  In w (pieces p s) -> all_chars (fun c => negb (p c)) w = true.
Proof.
  revert w. induction s as [|c rest IH]; cbn; intros w.
  - now intros [<-|[]].
  - destruct (p c) eqn:Hc.
    + intros [<-|Hw]; [reflexivity | now apply IH].
    + destruct (pieces_head p rest) as (h & t & r & Hp & _). rewrite Hp in *.
      intros [<-|Hw].
      * cbn. rewrite Hc. cbn. apply IH. now left.
      * apply IH. now right.
Qed.

(** What a piece contains, the string contains. *)
Lemma pieces_contains (p : ascii -> bool) (sub s w : string) :
  In w (pieces p s) -> contains sub w = true -> contains sub s = true.
Proof.
  revert w. induction s as [|c rest IH]; cbn [pieces]; intros w.
  - now intros [<-|[]].
  - assert (Hrest : forall w', In w' (pieces p rest) -> contains sub w' = true ->
                               contains sub (String c rest) = true).
    { intros w' Hin Hc. cbn [contains]. rewrite (IH w' Hin Hc). apply orb_true_r. }
    destruct (p c).
    + intros [<-|Hw] Hsub; [|now apply (Hrest w)].
      cbn in Hsub. rewrite orb_false_r in Hsub.
      destruct sub; [reflexivity | discriminate].
    + destruct (pieces_head p rest) as (h & t & r & Hp & Hs). rewrite Hp in *.
      intros [<-|Hw] Hsub; [|apply (Hrest w); [now right | assumption]].
      cbn [contains] in Hsub. apply orb_prop in Hsub as [Hpre|Hin].
      * cbn [contains]. apply orb_true_iff. left.
        rewrite Hs. now apply (prefix_append sub (String c h) r).
      * apply (Hrest h); [now left | assumption].
Qed.

(** The pieces on either side of a separator. *)
Lemma pieces_append (p : ascii -> bool) (a b : string) (c : ascii) :
  p c = true ->
  pieces p (a +:+ String c b) = (pieces p a ++ pieces p b)%list.
Proof.
  intros Hc. induction a as [|x a IH].
  - change (EmptyString +:+ String c b) with (String c b). cbn [pieces app].
    now rewrite Hc.
  - change (String x a +:+ String c b) with (String x (a +:+ String c b)).
    cbn [pieces]. rewrite IH. destruct (p x); [reflexivity|].
    destruct (pieces_head p a) as (h & t & r & Hp & _). now rewrite Hp.
Qed.

(** Joining the pieces gives the string back. *)
Lemma join_split_on (sep : ascii) (s : string) : join sep (split_on sep s) = s.
Proof.
  unfold split_on. induction s as [|c rest IH]; [reflexivity|]. cbn [pieces].
  destruct (pieces_head (Ascii.eqb sep) rest) as (h & t & r & Hp & _).
  rewrite Hp in *. destruct (Ascii.eqb sep c) eqn:Hc.
  - apply Ascii.eqb_eq in Hc. subst c.
    change (join sep (EmptyString :: h :: t)) with (String sep (join sep (h :: t))).
    now rewrite IH.
  - destruct t as [|t1 t2].
    + change (join sep [String c h]) with (String c (join sep [h])). now rewrite IH.
    + change (join sep (String c h :: t1 :: t2))
        with (String c (join sep (h :: t1 :: t2))).
      now rewrite IH.
Qed.

Lemma pieces_join (p : ascii -> bool) (sep : ascii) (parts : list string) :
  p sep = true -> parts <> [] ->
  pieces p (join sep parts) = concat (map (pieces p) parts).
Proof.
  intros Hsep. induction parts as [|part rest IH]; [contradiction|]. intros _.
  destruct rest as [|part' rest'].
  - cbn. now rewrite app_nil_r.
  - change (join sep (part :: part' :: rest'))
      with (part +:+ String sep (join sep (part' :: rest'))).
    rewrite (pieces_append p _ _ sep Hsep), IH by discriminate. reflexivity.
Qed.

(** The words of a text are the words of its lines. *)
Lemma split_whitespace_lines (text : string) :
  split_whitespace text = flat_map split_whitespace (split_on newline text).
Proof.
  unfold split_whitespace at 1.
  rewrite <- (join_split_on newline text) at 1.
  destruct (pieces_head (Ascii.eqb newline) text) as (h & t & r & Hp & _).
  rewrite pieces_join; [|reflexivity|unfold split_on; rewrite Hp; discriminate].
  induction (split_on newline text) as [|line lines IH]; [reflexivity|].
  cbn [map concat flat_map]. rewrite List.filter_app, IH. reflexivity.
Qed.

Lemma filter_none {A : Type} (f : A -> bool) (l : list A) :
  (forall x, In x l -> f x = false) -> List.filter f l = [].
Proof.
  induction l as [|x l IH]; [reflexivity|]. intros H. cbn.
  rewrite (H x) by now left. apply IH. intros y Hy. apply H. now right.
Qed.

(** A line without [_user] has no word with [_user]. *)
Lemma words_of_filtered_lines (lines : list string) :
  flat_map (fun line => List.filter (contains "_user") (split_whitespace line))
    (List.filter (contains "_user") lines)
  = List.filter (contains "_user") (flat_map split_whitespace lines).
Proof.
  induction lines as [|line lines IH]; [reflexivity|].
  cbn [List.filter flat_map]. rewrite List.filter_app.
  destruct (contains "_user" line) eqn:Hline.
  - cbn [flat_map]. now rewrite IH.
  - rewrite IH, (filter_none (contains "_user") (split_whitespace line)); [reflexivity|].
    intros w Hw. destruct (contains "_user" w) eqn:Hin; [|reflexivity].
    unfold split_whitespace in Hw. apply List.filter_In in Hw as [Hw _].
    rewrite (pieces_contains isspace_char "_user" line w Hw Hin) in Hline. discriminate.
Qed.

(** The two loops of [get_available_usernames] filter the words of the
    whole text. *)
Lemma collect_lines_whole_text (text : string) :
  LoginPage.collect_lines (split_on newline text) []
  = List.filter (contains "_user") (split_whitespace text).
Proof.
  rewrite collect_lines_flat_map, split_whitespace_lines. cbn [app].
  apply words_of_filtered_lines.
Qed.

(** X22: every user name that [get_available_usernames] returns contains
    [_user] and holds no whitespace. *)
Theorem usernames_are_words (self : BasePage) (usernames : list string) :
  LoginPage.get_available_usernames self = Ok usernames ->
  Forall (fun name => contains "_user" name = true /\
                      all_chars (fun c => negb (isspace_char c)) name = true)
    usernames.
Proof.
  unfold LoginPage.get_available_usernames, LoginPage.is_login_credentials_visible.
  rewrite is_element_visible_value.
  destruct (wait_for _ _ _ _); cbn; try (intros [= <-]; constructor).
  destruct (get_text self LoginPage.LOGIN_CREDENTIALS None) as [text|e]; cbn;
    [|discriminate].
  intros [= <-]. change (chr 10) with newline. rewrite collect_lines_whole_text.
  apply List.Forall_forall. intros name [Hin Huser]%List.filter_In.
  split; [assumption|].
  unfold split_whitespace in Hin. apply List.filter_In in Hin as [Hin _].
  now apply (pieces_no_separator isspace_char text).
Qed.

Lemma usernames_are_words_witness :
  LoginPage.get_available_usernames
    (on (page_showing LoginPage.LOGIN_CREDENTIALS hint_text))
  = Ok ["standard_user"; "locked_out_user"] /\
  Forall (fun name => contains "_user" name = true /\
                      all_chars (fun c => negb (isspace_char c)) name = true)
    ["standard_user"; "locked_out_user"].
Proof.
  assert (H : LoginPage.get_available_usernames
                (on (page_showing LoginPage.LOGIN_CREDENTIALS hint_text))
              = Ok ["standard_user"; "locked_out_user"]) by reflexivity.
  split; [assumption|].
  exact (usernames_are_words _ _ H).
Defined.

(** X23: the lines play no part in [get_available_usernames]: for a shown
    credentials hint it returns the words of the whole text, split at
    whitespace, that contain [_user]. *)
Theorem usernames_from_whole_text (self : BasePage) (text : option string) :
  shown (page self) LoginPage.LOGIN_CREDENTIALS text ->
  LoginPage.get_available_usernames self
  = Ok (List.filter (contains "_user") (split_whitespace (or_empty text))).
Proof.
  intros Hshown. destruct (shown_visible self _ _ Hshown) as [Hvis Htext].
  unfold LoginPage.get_available_usernames, LoginPage.is_login_credentials_visible.
  rewrite Hvis. cbn. rewrite Htext. cbn.
  change (chr 10) with newline. now rewrite collect_lines_whole_text.
Qed.

Lemma usernames_from_whole_text_witness :
  shown (page (on (page_showing LoginPage.LOGIN_CREDENTIALS hint_text)))
    LoginPage.LOGIN_CREDENTIALS (Some hint_text) /\
  LoginPage.get_available_usernames
    (on (page_showing LoginPage.LOGIN_CREDENTIALS hint_text))
  = Ok (List.filter (contains "_user") (split_whitespace (or_empty (Some hint_text)))).
Proof.
  assert (H : shown (page (on (page_showing LoginPage.LOGIN_CREDENTIALS hint_text)))
                LoginPage.LOGIN_CREDENTIALS (Some hint_text))
    by (split; [intros t|]; reflexivity).
  split; [assumption|].
  exact (usernames_from_whole_text _ _ H).
Defined.

End WordFacts.
